(** * GameMind: hierarchical planning engine

    A shallow embedding of [src/llm/llama_client.py],
    [src/llm/subgoal_generator.py], [src/planning/mcts.py] and
    [src/planning/planner.py], and the properties of the planning engine
    checked against it. *)

From Stdlib Require Import ZArith QArith Lia Ascii.
From stdpp Require Import base option list strings.

Local Open Scope Z_scope.

(** ** Python exceptions *)

(** The exceptions the modelled code can raise.  [OutOfFuel] and [Dangling]
    are not Python exceptions: they mark a loop of the model that ran out of
    its fuel and a node address outside the arena.  Neither occurs on the
    trees the planner builds (proved below). *)
Inductive exn : Type :=
| IndexError
| ImportError
| ValueError
| KeyError
| AttributeError
| OutOfFuel
| Dangling.

Inductive result (A : Type) : Type :=
| Ok (a : A)
| Raise (e : exn).
Arguments Ok {A} a.
Arguments Raise {A} e.

Definition rbind {A B} (m : result A) (k : A -> result B) : result B :=
  match m with
  | Ok a => k a
  | Raise e => Raise e
  end.

Notation "x <- m ;; k" := (rbind m (fun x => k))
  (at level 100, m at next level, right associativity).

(** [try: body / except Exception: handler]. *)
Definition try_except {A} (body : result A) (handler : exn -> result A) : result A :=
  match body with
  | Ok a => Ok a
  | Raise e => handler e
  end.

(** [try: body / except ImportError: handler]; other exceptions propagate. *)
Definition try_except_ImportError {A} (body : result A) (handler : result A) : result A :=
  match body with
  | Raise ImportError => handler
  | r => r
  end.

(** ** Python strings

    A [str] is modelled by a [string] whose characters are the code points
    below 256. *)
Module Str.

Definition code (c : ascii) : N := N_of_ascii c.

(** [str.isspace] on one character: the code points below 256 that Python
    treats as whitespace. *)
Definition is_space (c : ascii) : bool :=
  let n := code c in
  ((9 <=? n) && (n <=? 13) || (28 <=? n) && (n <=? 32)
   || (n =? 133) || (n =? 160))%N.

Fixpoint lstrip (s : string) : string :=
  match s with
  | EmptyString => EmptyString
  | String c s' => if is_space c then lstrip s' else s
  end.

Fixpoint rstrip (s : string) : string :=
  match s with
  | EmptyString => EmptyString
  | String c s' =>
      match rstrip s' with
      | EmptyString => if is_space c then EmptyString else String c EmptyString
      | r => String c r
      end
  end.

(** [s.strip()] *)
Definition strip (s : string) : string := rstrip (lstrip s).

Definition lower_char (c : ascii) : ascii :=
  let n := code c in
  if ((65 <=? n) && (n <=? 90) || (192 <=? n) && (n <=? 214)
      || (216 <=? n) && (n <=? 222))%N
  then ascii_of_N (n + 32) else c.

(** [s.lower()] *)
Fixpoint lower (s : string) : string :=
  match s with
  | EmptyString => EmptyString
  | String c s' => String (lower_char c) (lower s')
  end.

(** [s.startswith(p)] *)
Definition startswith (s p : string) : bool := String.prefix p s.

(** [s.startswith((p1, p2, ...))] *)
Definition startswith_any (s : string) (ps : list string) : bool :=
  existsb (startswith s) ps.

(** [s.startswith(p)] for a prefix written by its code points, some of
    which may lie beyond 255. *)
Fixpoint startswith_codes (s : string) (p : list N) : bool :=
  match p with
  | [] => true
  | k :: p' =>
      match s with
      | EmptyString => false
      | String c s' => (code c =? k)%N && startswith_codes s' p'
      end
  end.

(** [sub in s] *)
Fixpoint contains (sub s : string) : bool :=
  String.prefix sub s
  || match s with
     | EmptyString => false
     | String _ s' => contains sub s'
     end.

(** [s[i]] for a non-negative index. *)
Definition getitem (s : string) (i : nat) : result ascii :=
  match String.get i s with
  | Some c => Ok c
  | None => Raise IndexError
  end.

(** [s[n:]] for a non-negative bound. *)
Fixpoint slice_from (n : nat) (s : string) : string :=
  match n, s with
  | O, _ => s
  | S n', String _ s' => slice_from n' s'
  | S _, EmptyString => EmptyString
  end.

Definition newline : ascii := "010"%char.

(** [s.split('\n')] *)
Fixpoint split_lines (s : string) : list string :=
  match s with
  | EmptyString => [EmptyString]
  | String c s' =>
      if Ascii.eqb c newline then EmptyString :: split_lines s'
      else match split_lines s' with
           | w :: ws => String c w :: ws
           | [] => [String c EmptyString]
           end
  end.

(** [s.split()]: the maximal runs of non-whitespace characters. *)
Fixpoint split (s : string) : list string :=
  match s with
  | EmptyString => []
  | String c s' =>
      if is_space c then split s'
      else match s' with
           | EmptyString => [String c EmptyString]
           | String c' _ =>
               if is_space c' then String c EmptyString :: split s'
               else match split s' with
                    | w :: ws => String c w :: ws
                    | [] => [String c EmptyString]
                    end
           end
  end.

(** Truth value of a string: non-empty. *)
Definition truthy (s : string) : bool :=
  match s with
  | EmptyString => false
  | _ => true
  end.

Definition len (s : string) : Z := Z.of_nat (String.length s).

Definition nl : string := String newline EmptyString.

(** The text NumPy hands back for a [str] it has stored in an array
    ([np.random.choice] on a list of strings builds one): the string
    without its trailing NUL characters. *)
Fixpoint np_str (s : string) : string :=
  match s with
  | EmptyString => EmptyString
  | String c s' =>
      match np_str s' with
      | EmptyString => if (code c =? 0)%N then EmptyString else String c EmptyString
      | r => String c r
      end
  end.

End Str.

(** [l[:k]] for an arbitrary integer bound. *)
Definition slice_to {A} (l : list A) (k : Z) : list A :=
  if 0 <=? k then take (Z.to_nat k) l
  else take (Z.to_nat (Z.of_nat (length l) + k)) l.

(** [d.get(key, default)] on an optional field. *)
Definition get_default {A} (field : option A) (dflt : A) : A :=
  match field with
  | Some a => a
  | None => dflt
  end.

(** [for key, subgoals in table.items(): if key in goal_lower: return
    subgoals], then the default; [lower_key] says whether the loop tests
    [key.lower()] instead of [key]. *)
Fixpoint first_match (table : list (string * list string)) (goal_lower : string)
    (lower_key : bool) (dflt : list string) : list string :=
  match table with
  | [] => dflt
  | (key, subgoals) :: rest =>
      if Str.contains (if lower_key then Str.lower key else key) goal_lower
      then subgoals
      else first_match rest goal_lower lower_key dflt
  end.

(** [max(items, key=key)]: the first item whose key no later item exceeds;
    [gt] is the comparison [>] on keys. *)
Fixpoint max_loop {A K} (gt : K -> K -> bool) (key : A -> result K)
    (best : A) (kbest : K) (items : list A) : result A :=
  match items with
  | [] => Ok best
  | x :: rest =>
      kx <- key x ;;
      if gt kx kbest then max_loop gt key x kx rest
      else max_loop gt key best kbest rest
  end.

Definition py_max {A K} (gt : K -> K -> bool) (key : A -> result K)
    (items : list A) : result A :=
  match items with
  | [] => Raise ValueError
  | x :: rest => kx <- key x ;; max_loop gt key x kx rest
  end.

(** [[f(x) for x in items]] *)
Fixpoint mapM {A B} (f : A -> result B) (items : list A) : result (list B) :=
  match items with
  | [] => Ok []
  | x :: rest => y <- f x ;; ys <- mapM f rest ;; Ok (y :: ys)
  end.

(** [for _ in range(n): s = body(s)] *)
Fixpoint for_range {S} (n : nat) (body : S -> result S) (s : S) : result S :=
  match n with
  | O => Ok s
  | S n' => s' <- body s ;; for_range n' body s'
  end.

(** ** [src/llm/llama_client.py] and [src/llm/subgoal_generator.py] *)
Module LLM.

(** The ['prompts'] entry of the LLM configuration. *)
Record PromptsConfig : Type := {
  prompt_subgoal_generation : option string;
  prompt_task_analysis : option string
}.

(** The ['llm'] entry of the configuration dictionary; [None] is an
    absent key. *)
Record LLMConfig : Type := {
  cfg_llm_enabled : option bool;
  cfg_model_name : option string;
  cfg_max_tokens : option Z;
  cfg_temperature : option Q;
  cfg_prompts : option PromptsConfig;
  cfg_base_url : option string;
  cfg_api_key : option string
}.

Definition empty_prompts : PromptsConfig :=
  {| prompt_subgoal_generation := None; prompt_task_analysis := None |}.

Definition empty_llm_config : LLMConfig :=
  {| cfg_llm_enabled := None; cfg_model_name := None; cfg_max_tokens := None;
     cfg_temperature := None; cfg_prompts := None; cfg_base_url := None;
     cfg_api_key := None |}.

Record LlamaClient : Type := {
  base_url : string;
  client_model_name : string;
  api_key : option string
}.

Section WithState.
(** The observation type is opaque to the planning engine. *)
Context {State : Type}.

(** What the code takes from outside the repository: whether the two
    lazily imported modules can be imported, [str.format] with one named
    field, the HTTP backend ([None]: the request raised; otherwise the
    status code and the ['response'] field of the JSON body, [''] when
    absent), and the text [str(state)] or the shape line of
    [_format_state_info]. *)
Record Env : Type := {
  subgoal_generator_importable : bool;
  llama_client_importable : bool;
  str_format : string -> string -> string -> result string;
  http_post : LlamaClient -> string -> Z -> Q -> option (Z * string);
  _format_state_info : State -> string
}.

(** [LlamaClient.__init__]; [_test_connection] only prints. *)
Definition LlamaClient_init (config : LLMConfig) : LlamaClient :=
  {| base_url := get_default (cfg_base_url config) "http://localhost:11434";
     client_model_name := get_default (cfg_model_name config) "llama2";
     api_key := cfg_api_key config |}.

Definition _fallback_generation (prompt : string) : string :=
  if Str.contains "collect" (Str.lower prompt) then
    "1. Find resource location" +:+ Str.nl +:+ "2. Approach resource" +:+ Str.nl
    +:+ "3. Use appropriate tool" +:+ Str.nl +:+ "4. Gather resource"
  else if Str.contains "craft" (Str.lower prompt) then
    "1. Gather required materials" +:+ Str.nl +:+ "2. Find crafting station" +:+ Str.nl
    +:+ "3. Select recipe" +:+ Str.nl +:+ "4. Craft item"
  else if Str.contains "defeat" (Str.lower prompt) then
    "1. Find enemy" +:+ Str.nl +:+ "2. Equip weapon" +:+ Str.nl
    +:+ "3. Approach carefully" +:+ Str.nl +:+ "4. Attack and retreat"
  else
    "1. Explore environment" +:+ Str.nl +:+ "2. Gather resources" +:+ Str.nl
    +:+ "3. Complete objective" +:+ Str.nl +:+ "4. Return to base".

(** [LlamaClient.generate]: every exception is caught inside. *)
Definition LlamaClient_generate (env : Env) (client : LlamaClient)
    (prompt : string) (max_tokens : Z) (temperature : Q) : string :=
  match http_post env client prompt max_tokens temperature with
  | Some (status, response) =>
      if status =? 200 then response else _fallback_generation prompt
  | None => _fallback_generation prompt
  end.

Record SubGoalGenerator : Type := {
  llm_config : LLMConfig;
  enabled : bool;
  model_name : string;
  max_tokens : Z;
  temperature : Q;
  prompts : PromptsConfig;
  llm_client : option LlamaClient
}.

(** [SubGoalGenerator.__init__] with [_initialize_llm] inlined; it is
    given the ['llm'] entry of the configuration, if any. *)
Definition SubGoalGenerator_init (env : Env) (llm_entry : option LLMConfig)
    : result SubGoalGenerator :=
  let llm_config := get_default llm_entry empty_llm_config in
  let enabled := get_default (cfg_llm_enabled llm_config) true in
  let mk en cl :=
    {| llm_config := llm_config;
       enabled := en;
       model_name := get_default (cfg_model_name llm_config) "llama-2-7b-chat";
       max_tokens := get_default (cfg_max_tokens llm_config) 128;
       temperature := get_default (cfg_temperature llm_config) (7 # 10)%Q;
       prompts := get_default (cfg_prompts llm_config) empty_prompts;
       llm_client := cl |} in
  if enabled then
    try_except_ImportError
      (_ <- (if llama_client_importable env then Ok tt else Raise ImportError) ;;
       Ok (mk true (Some (LlamaClient_init llm_config))))
      (Ok (mk false None))
  else Ok (mk false None).

Definition _create_subgoal_prompt (env : Env) (self : SubGoalGenerator)
    (goal : string) (current_state : option State) : result string :=
  let base_prompt :=
    get_default (prompt_subgoal_generation (prompts self))
                "Generate 3-5 specific subgoals for: {goal}" in
  prompt <- str_format env base_prompt "goal" goal ;;
  match current_state with
  | Some st =>
      Ok (prompt +:+ Str.nl +:+ Str.nl +:+ "Current state: " +:+ _format_state_info env st)
  | None => Ok prompt
  end.

(** The first seven prefixes of the [startswith] test. *)
Definition markers : list string := ["1."; "2."; "3."; "4."; "5."; "-"; "*"].

(** The eighth prefix of the [startswith] test: the three characters
    U+00E2 U+20AC U+00A2, a bullet U+2022 read in the wrong encoding. *)
Definition misread_bullet : list N := [226; 8364; 162]%N.

(** One iteration of the [for line in lines] loop of [_parse_subgoals]:
    the list of subgoals after this line. *)
Definition parse_line (line : string) (subgoals : list string)
    : result (list string) :=
  let line := Str.strip line in
  if negb (Str.truthy line) then Ok subgoals
  else
    line <- (if Str.startswith_any line markers
                || Str.startswith_codes line misread_bullet then
               c <- Str.getitem line 1 ;;
               if Ascii.eqb c "."%char
               then Ok (Str.strip (Str.slice_from 2 line))
               else Ok (Str.strip (Str.slice_from 1 line))
             else Ok line) ;;
    if Str.truthy line && (3 <? Str.len line)
    then Ok (subgoals ++ [line])
    else Ok subgoals.

Fixpoint parse_lines (lines : list string) (subgoals : list string)
    : result (list string) :=
  match lines with
  | [] => Ok subgoals
  | line :: rest =>
      subgoals' <- parse_line line subgoals ;;
      parse_lines rest subgoals'
  end.

Definition _parse_subgoals (response : string) : result (list string) :=
  if negb (Str.truthy response) then Ok []
  else parse_lines (Str.split_lines (Str.strip response)) [].

(** The rule table of [_generate_fallback_subgoals], in insertion order. *)
Definition fallback_subgoals : list (string * list string) :=
  [ ("survive", ["find food"; "find shelter"; "avoid enemies"; "maintain health"]);
    ("collect wood", ["find trees"; "chop wood"; "gather resources"; "return to base"]);
    ("make wood_pickaxe", ["collect wood"; "find workbench"; "craft pickaxe"; "test tool"]);
    ("place furnace", ["collect stone"; "find location"; "place building"; "verify placement"]);
    ("defeat zombie", ["find weapon"; "approach enemy"; "attack"; "retreat if needed"]);
    ("explore", ["move around"; "map area"; "find resources"; "avoid danger"]) ].

Definition _generate_fallback_subgoals (goal : string) : list string :=
  first_match fallback_subgoals (Str.lower goal) true
    ["explore environment"; "gather resources"; "avoid danger"; "complete objective"].

Definition generate_subgoals (env : Env) (self : SubGoalGenerator)
    (goal : string) (current_state : option State) : result (list string) :=
  match enabled self, llm_client self with
  | true, Some client =>
      try_except
        (prompt <- _create_subgoal_prompt env self goal current_state ;;
         let response :=
           LlamaClient_generate env client prompt (max_tokens self) (temperature self) in
         subgoals <- _parse_subgoals response ;;
         Ok (slice_to subgoals 5))
        (fun _ => Ok (_generate_fallback_subgoals goal))
  | _, _ => Ok (_generate_fallback_subgoals goal)
  end.

Inductive complexity : Type := simple | medium | complex | unknown.

(** The dictionary [analyze_task] returns. *)
Record TaskAnalysis : Type := {
  task : string;
  analysis : string;
  task_complexity : complexity;
  estimated_steps : Z
}.

Definition _analyze_task_fallback (task : string) : TaskAnalysis :=
  {| task := task; analysis := "Basic task analysis";
     task_complexity := medium; estimated_steps := 3 |}.

Definition _estimate_complexity (analysis : string) : complexity :=
  if negb (Str.truthy analysis) then unknown
  else
    let words := Str.split (Str.lower analysis) in
    if Z.of_nat (length words) <? 10 then simple
    else if Z.of_nat (length words) <? 20 then medium
    else complex.

Definition action_words : list string :=
  ["collect"; "craft"; "place"; "defeat"; "find"; "move"; "use"].

Definition _estimate_steps (analysis : string) : Z :=
  if negb (Str.truthy analysis) then 3
  else
    let count :=
      Z.of_nat (length (filter (fun word => Str.contains word (Str.lower analysis) = true)
                               action_words)) in
    Z.max 2 (Z.min count 6).

Definition analyze_task (env : Env) (self : SubGoalGenerator) (task : string)
    : result TaskAnalysis :=
  match enabled self, llm_client self with
  | true, Some client =>
      try_except
        (let prompt :=
           get_default (prompt_task_analysis (prompts self))
             "Analyze the current task: {task}. What are the key steps needed?" in
         prompt <- str_format env prompt "task" task ;;
         let response :=
           LlamaClient_generate env client prompt (max_tokens self) (temperature self) in
         Ok {| task := task; analysis := response;
               task_complexity := _estimate_complexity response;
               estimated_steps := _estimate_steps response |})
        (fun _ => Ok (_analyze_task_fallback task))
  | _, _ => Ok (_analyze_task_fallback task)
  end.

End WithState.
Arguments Env : clear implicits.

End LLM.

(** ** Floating point numbers and the random generator

    The engine's floats are kept abstract: the operations the code applies
    to them are the fields of [FloatOps].  [math.log] is applied to a
    positive integer; its [ValueError] on other integers is modelled in
    [get_ucb_value]. *)
Class FloatOps (F : Type) : Type := {
  of_int : Z -> F;
  finf : F;
  fadd : F -> F -> F;
  fmul : F -> F -> F;
  fdiv : F -> F -> F;
  fsqrt : F -> F;
  flog : Z -> F;
  fgt : F -> F -> bool
}.

(** [np.random]: the state of the generator is threaded through the calls.
    [rand_index g n] is the draw behind [np.random.choice] on a list of
    [n] items (used modulo [n]); [rand_normal] is [np.random.normal(0, 1)].
    The law of the draw, every position with the same probability, is
    [MCTS.choice_law]. *)
Class RandomGen (F R : Type) : Type := {
  rand_index : R -> nat -> nat * R;
  rand_normal : R -> F * R
}.

(** ** [src/planning/mcts.py] *)
Module MCTS.
Section WithParams.
Context {State F R : Type} `{FloatOps F} `{RandomGen F R}.

(** A node of the tree.  Nodes live in an arena (a list); [parent] and
    [children] hold addresses, which are positions in the arena. *)
Record MCTSNode : Type := {
  state : State;
  action : option string;
  parent : option nat;
  children : list nat;
  visits : Z;
  value : F;
  depth : Z
}.

Definition deref (h : list MCTSNode) (a : nat) : result MCTSNode :=
  match h !! a with
  | Some n => Ok n
  | None => Raise Dangling
  end.

(** [MCTSNode.__init__] *)
Definition MCTSNode_init (h : list MCTSNode) (state : State)
    (action : option string) (parent : option nat) : result MCTSNode :=
  d <- match parent with
       | None => Ok 0
       | Some p => pn <- deref h p ;; Ok (depth pn + 1)
       end ;;
  Ok {| state := state; action := action; parent := parent; children := [];
        visits := 0; value := of_int 0; depth := d |}.

Definition set_children (n : MCTSNode) (cs : list nat) : MCTSNode :=
  {| state := state n; action := action n; parent := parent n; children := cs;
     visits := visits n; value := value n; depth := depth n |}.

Definition set_stats (n : MCTSNode) (vis : Z) (val : F) : MCTSNode :=
  {| state := state n; action := action n; parent := parent n;
     children := children n; visits := vis; value := val; depth := depth n |}.

(** [self.add_child(state, action)]: the address of the new child and
    the arena with the child allocated and appended to [self.children]. *)
Definition add_child (h : list MCTSNode) (self : nat) (state : State)
    (action : string) : result (nat * list MCTSNode) :=
  child <- MCTSNode_init h state (Some action) (Some self) ;;
  n <- deref h self ;;
  let c := length h in
  Ok (c, <[self := set_children n (children n ++ [c])]> (h ++ [child])).

Definition is_fully_expanded (n : MCTSNode) (available_actions : list string) : bool :=
  (length available_actions <=? length (children n))%nat.

Definition get_ucb_value (h : list MCTSNode) (n : MCTSNode)
    (exploration_constant : F) : result F :=
  if visits n =? 0 then Ok finf
  else
    let exploitation := fdiv (value n) (of_int (visits n)) in
    match parent n with
    | None => Raise AttributeError
    | Some p =>
        pn <- deref h p ;;
        if visits pn <=? 0 then Raise ValueError
        else
          let exploration :=
            fmul exploration_constant
                 (fsqrt (fdiv (flog (visits pn)) (of_int (visits n)))) in
          Ok (fadd exploitation exploration)
    end.

(** [MCTS.select]; the [while] loop runs on [fuel]. *)
Fixpoint select_loop (fuel : nat) (h : list MCTSNode) (exploration_constant : F)
    (node : nat) : result nat :=
  match fuel with
  | O => Raise OutOfFuel
  | S fuel' =>
      n <- deref h node ;;
      match children n with
      | [] => Ok node
      | _ :: _ =>
          if negb (is_fully_expanded n []) then Ok node
          else
            best_child <-
              py_max fgt (fun c => cn <- deref h c ;;
                                   get_ucb_value h cn exploration_constant)
                     (children n) ;;
            select_loop fuel' h exploration_constant best_child
      end
  end.

Definition select (h : list MCTSNode) (exploration_constant : F) (node : nat)
    : result nat :=
  select_loop (length h) h exploration_constant node.

Definition not_in (a : string) (expanded : list (option string)) : bool :=
  negb (existsb (fun e => bool_decide (e = Some a)) expanded).

(** [np.random.choice(items)] with the default probabilities, as a law:
    every position of [items] is drawn with probability [1 / len(items)],
    and the value handed back is the NumPy string of the item there. *)
Definition choice_law (items : list string) : list (string * Q) :=
  map (fun a => (Str.np_str a, 1 # Pos.of_nat (length items))) items.

(** The sum of the probabilities of a law. *)
Definition total_weight {A} (law : list (A * Q)) : Q :=
  fold_right (fun ap acc => (snd ap + acc)%Q) 0%Q law.

(** [MCTS.expand]: the node to simulate from, the arena and the
    generator afterwards.  [np.random.choice] hands back the drawn action
    as a NumPy string.  [node.state.copy()] is the same value. *)
Definition expand (h : list MCTSNode) (g : R) (node : nat)
    (available_actions : list string) : result (nat * list MCTSNode * R) :=
  match available_actions with
  | [] => Ok (node, h, g)
  | _ :: _ =>
      n <- deref h node ;;
      expanded_actions <- mapM (fun c => cn <- deref h c ;; Ok (action cn))
                               (children n) ;;
      let unexpanded_actions :=
        List.filter (fun a => not_in a expanded_actions) available_actions in
      match unexpanded_actions with
      | [] => Ok (node, h, g)
      | _ :: _ =>
          let ig := rand_index g (length unexpanded_actions) in
          match unexpanded_actions !! (fst ig mod length unexpanded_actions)%nat with
          | None => Raise ValueError
          | Some a =>
              let action := Str.np_str a in
              let dummy_state := state n in
              ch <- add_child h node dummy_state action ;;
              Ok (fst ch, snd ch, snd ig)
          end
      end
  end.

(** The law of the action [MCTS.expand] gives the child it adds, [None]
    when it adds no child: the law of [np.random.choice] on the actions no
    child of the node holds yet. *)
Definition expand_law (h : list MCTSNode) (node : nat)
    (available_actions : list string) : result (list (option string * Q)) :=
  match available_actions with
  | [] => Ok [(None, 1%Q)]
  | _ :: _ =>
      n <- deref h node ;;
      expanded_actions <- mapM (fun c => cn <- deref h c ;; Ok (action cn))
                               (children n) ;;
      let unexpanded_actions :=
        List.filter (fun a => not_in a expanded_actions) available_actions in
      match unexpanded_actions with
      | [] => Ok [(None, 1%Q)]
      | _ :: _ =>
          Ok (map (fun ap => (Some (fst ap), snd ap)) (choice_law unexpanded_actions))
      end
  end.

Fixpoint simulate_loop (steps : nat) (g : R) (total_reward : F) : F * R :=
  match steps with
  | O => (total_reward, g)
  | S steps' =>
      let rg := rand_normal g in
      simulate_loop steps' (snd rg) (fadd total_reward (fst rg))
  end.

(** [MCTS.simulate]: ten draws summed up from [0.0]. *)
Definition simulate (g : R) : F * R := simulate_loop 10 g (of_int 0).

(** [MCTS.backpropagate]; the [while node is not None] loop runs on
    [fuel]. *)
Fixpoint backpropagate_loop (fuel : nat) (h : list MCTSNode) (node : option nat)
    (v : F) : result (list MCTSNode) :=
  match node with
  | None => Ok h
  | Some a =>
      match fuel with
      | O => Raise OutOfFuel
      | S fuel' =>
          n <- deref h a ;;
          let n' := set_stats n (visits n + 1) (fadd (value n) v) in
          backpropagate_loop fuel' (<[a := n']> h) (parent n') v
      end
  end.

Definition backpropagate (h : list MCTSNode) (node : nat) (v : F)
    : result (list MCTSNode) :=
  backpropagate_loop (length h) h (Some node) v.

End WithParams.
Arguments MCTSNode : clear implicits.
End MCTS.

(** ** [src/planning/planner.py] *)
Module Planning.
Import LLM MCTS.

(** The ['subgoal_generation'] entry of the configuration. *)
Record SubgoalGenerationConfig : Type := {
  cfg_sg_enabled : option bool;
  cfg_max_subgoals : option Z
}.

Definition empty_subgoal_generation : SubgoalGenerationConfig :=
  {| cfg_sg_enabled := None; cfg_max_subgoals := None |}.

Section WithParams.
Context {State F R : Type} `{FloatOps F} `{RandomGen F R}.

(** The configuration dictionary given to [Planner]; [None] is an
    absent key. *)
Record Config : Type := {
  cfg_enabled : option bool;
  cfg_mcts_simulations : option Z;
  cfg_max_depth : option Z;
  cfg_exploration_constant : option F;
  cfg_subgoal_generation : option SubgoalGenerationConfig;
  cfg_llm : option LLMConfig
}.

Record Planner : Type := {
  config : Config;
  enabled : bool;
  mcts_simulations : Z;
  max_depth : Z;
  exploration_constant : F;
  subgoal_enabled : bool;
  max_subgoals : Z;
  llm : option SubGoalGenerator
}.

(** [Planner.__init__] *)
Definition Planner_init (env : Env State) (config : Config) : result Planner :=
  let sg := get_default (cfg_subgoal_generation config) empty_subgoal_generation in
  let subgoal_enabled := get_default (cfg_sg_enabled sg) true in
  llm <- (if subgoal_enabled then
            try_except_ImportError
              (_ <- (if subgoal_generator_importable env then Ok tt
                     else Raise ImportError) ;;
               gen <- SubGoalGenerator_init env (cfg_llm config) ;;
               Ok (Some gen))
              (Ok None)
          else Ok None) ;;
  Ok {| config := config;
        enabled := get_default (cfg_enabled config) true;
        mcts_simulations := get_default (cfg_mcts_simulations config) 100;
        max_depth := get_default (cfg_max_depth config) 10;
        exploration_constant := get_default (cfg_exploration_constant config) (of_int 1);
        subgoal_enabled := subgoal_enabled;
        max_subgoals := get_default (cfg_max_subgoals sg) 5;
        llm := llm |}.

(** The table of [_generate_basic_subgoals], in insertion order. *)
Definition basic_subgoals : list (string * list string) :=
  [ ("survive", ["find food"; "find shelter"; "avoid enemies"]);
    ("collect wood", ["find trees"; "chop wood"; "gather resources"]);
    ("make wood_pickaxe", ["collect wood"; "craft pickaxe"; "use workbench"]);
    ("place furnace", ["collect stone"; "find location"; "place building"]);
    ("defeat zombie", ["find weapon"; "approach enemy"; "attack"]) ].

Definition _generate_basic_subgoals (goal : string) : list string :=
  first_match basic_subgoals (Str.lower goal) false
    ["explore"; "gather resources"; "survive"].

Definition _generate_subgoals (env : Env State) (self : Planner)
    (observation : State) (goal : string) : result (list string) :=
  match llm self, subgoal_enabled self with
  | Some gen, true =>
      try_except
        (subgoals <- generate_subgoals env gen goal (Some observation) ;;
         Ok (slice_to subgoals (max_subgoals self)))
        (fun _ => Ok (_generate_basic_subgoals goal))
  | _, _ => Ok (_generate_basic_subgoals goal)
  end.

(** One pass of the simulation loop of [_refine_plan_with_mcts] on the
    arena and the generator; the root is at address [root]. *)
Definition simulation_step (self : Planner) (subgoals : list string) (root : nat)
    (s : list (MCTSNode State F) * R) : result (list (MCTSNode State F) * R) :=
  node <- select (fst s) (exploration_constant self) root ;;
  n <- deref (fst s) node ;;
  e <- (if depth n <? max_depth self then expand (fst s) (snd s) node subgoals
        else Ok (node, fst s, snd s)) ;;
  let vg := simulate (snd e) in
  h <- backpropagate (snd (fst e)) (fst (fst e)) (fst vg) ;;
  Ok (h, snd vg).

(** The tree after the simulation loop: the root is allocated at address
    [0] of a fresh arena. *)
Definition run_simulations (self : Planner) (g : R) (observation : State)
    (subgoals : list string) : result (list (MCTSNode State F) * R) :=
  root <- MCTSNode_init [] observation None None ;;
  for_range (Z.to_nat (mcts_simulations self))
            (simulation_step self subgoals 0%nat) ([root], g).

(** The extraction loop [while current.children]; it runs on [fuel]. *)
Fixpoint extract_loop (fuel : nat) (h : list (MCTSNode State F)) (current : nat)
    (best_plan : list string) : result (list string) :=
  match fuel with
  | O => Raise OutOfFuel
  | S fuel' =>
      n <- deref h current ;;
      match children n with
      | [] => Ok best_plan
      | _ :: _ =>
          best_child <- py_max Z.gtb (fun c => cn <- deref h c ;; Ok (visits cn))
                               (children n) ;;
          bn <- deref h best_child ;;
          let best_plan' :=
            match action bn with
            | Some a => if Str.truthy a then best_plan ++ [a] else best_plan
            | None => best_plan
            end in
          extract_loop fuel' h best_child best_plan'
      end
  end.

Definition _refine_plan_with_mcts (self : Planner) (g : R) (observation : State)
    (subgoals : list string) : result (list string * R) :=
  match subgoals with
  | [] => Ok ([], g)
  | _ :: _ =>
      hg <- run_simulations self g observation subgoals ;;
      best_plan <- extract_loop (length (fst hg)) (fst hg) 0%nat [] ;;
      Ok (match best_plan with [] => subgoals | _ :: _ => best_plan end, snd hg)
  end.

(** [Planner.plan]: the plan and the generator afterwards. *)
Definition plan (env : Env State) (self : Planner) (g : R) (observation : State)
    (goal : string) : result (list string * R) :=
  if negb (enabled self) then Ok ([], g)
  else
    subgoals <- _generate_subgoals env self observation goal ;;
    match subgoals with
    | _ :: _ => _refine_plan_with_mcts self g observation subgoals
    | [] => Ok ([], g)
    end.

(** [Planner.update_plan]; [None] is Python's [None]. *)
Definition update_plan (env : Env State) (self : Planner) (g : R)
    (current_state : State) (executed_action : string) (reward : Q)
    : result (option (list string) * R) :=
  if Qlt_le_dec reward 0 then
    pg <- plan env self g current_state "recover from failure" ;;
    Ok (Some (fst pg), snd pg)
  else Ok (None, g).

End WithParams.
Arguments Config : clear implicits.
Arguments Planner : clear implicits.
End Planning.

(** ** A sample world

    The statements below that are closed (examples at concrete inputs) need
    one instance of every parameter.  The results they state do not depend
    on the float structure or on the values of the normal draws; the general
    lemmas they are instances of are proved for every structure. *)
Module Sample.
Import LLM.

(** A float structure over the rationals extended with [None] for
    [float('inf')]: the arithmetic is exact, the square root and the
    logarithm are coarse approximations (integer square root of the value
    scaled by [10^6], and [log2] times [0.693]). *)
Definition lift2 (f : Q -> Q -> Q) (x y : option Q) : option Q :=
  match x, y with
  | Some a, Some b => Some (f a b)
  | _, _ => None
  end.

Definition approx_sqrt (q : Q) : Q :=
  (Z.sqrt (1000000 * Qnum q * Zpos (Qden q)) # (1000 * Qden q))%Q.

Definition approx_log (n : Z) : Q := (Z.log2 n * 693 # 1000)%Q.

Definition gt_float (x y : option Q) : bool :=
  match x, y with
  | None, Some _ => true
  | Some a, Some b => negb (Qle_bool a b)
  | _, None => false
  end.

#[export] Instance QFloat : FloatOps (option Q) := {|
  of_int := fun z => Some (inject_Z z);
  finf := None;
  fadd := lift2 Qplus;
  fmul := lift2 Qmult;
  fdiv := lift2 Qdiv;
  fsqrt := option_map approx_sqrt;
  flog := fun n => Some (approx_log n);
  fgt := gt_float
|}.

(** A generator that replays a list of indices for [np.random.choice]
    (index [0] once the list is exhausted) and draws [0] for every normal
    sample. *)
#[export] Instance ListGen : RandomGen (option Q) (list nat) := {|
  rand_index := fun g _ => match g with
                           | [] => (0%nat, [])
                           | i :: g' => (i, g')
                           end;
  rand_normal := fun g => (Some 0%Q, g)
|}.

(** [template.format(name=value)] for templates whose only braces are
    those of the placeholder [{name}]: the text before the placeholder,
    the value, the text after it.  A template without the placeholder is
    returned unchanged. *)
Fixpoint format_go (template placeholder value : string) : string :=
  match template with
  | EmptyString => EmptyString
  | String c rest =>
      if String.prefix placeholder template
      then value +:+ Str.slice_from (String.length placeholder) template
      else String c (format_go rest placeholder value)
  end.

Definition sample_format (template name value : string) : result string :=
  Ok (format_go template ("{" +:+ name +:+ "}") value).

(** An environment whose backend answers every request with status
    [status] and text [response]. *)
Definition answering (status : Z) (response : string) : Env unit :=
  {| subgoal_generator_importable := true;
     llama_client_importable := true;
     str_format := sample_format;
     http_post := fun _ _ _ _ => Some (status, response);
     _format_state_info := fun _ => "()" |}.

(** An environment whose backend cannot be reached. *)
Definition offline : Env unit :=
  {| subgoal_generator_importable := true;
     llama_client_importable := true;
     str_format := sample_format;
     http_post := fun _ _ _ _ => None;
     _format_state_info := fun _ => "()" |}.

End Sample.

(** ** The parsing rule in the words of the specification *)
Module ParseSpec.

Definition numbered : list string := ["1."; "2."; "3."; "4."; "5."].
Definition bullets : list string := ["-"; "*"].

(** A line is blank when nothing but whitespace is on it. *)
Definition blank (line : string) : bool := negb (Str.truthy line).

(** Strip a leading enumeration marker ("1." to "5.", "-" or "*") and the
    whitespace after it. *)
Definition strip_marker (line : string) : string :=
  if Str.startswith_any line numbered then Str.strip (Str.slice_from 2 line)
  else if Str.startswith_any line bullets then Str.strip (Str.slice_from 1 line)
  else line.

(** Drop blank lines, strip the markers, discard the fragments shorter
    than four characters. *)
Definition fragments (lines : list string) : list string :=
  List.filter (fun s => (4 <=? String.length s)%nat)
    (map strip_marker
       (List.filter (fun line => negb (blank line)) (map Str.strip lines))).

Definition parse (response : string) : list string :=
  fragments (Str.split_lines (Str.strip response)).

(** The line does not start with the misread bullet, and if it is a
    bullet line it has a second character, which is not a dot. *)
Definition regular_line (line : string) : Prop :=
  Str.startswith_codes line LLM.misread_bullet = false
  /\ (Str.startswith_any line bullets = true ->
      exists c, String.get 1 line = Some c /\ c <> "."%char).

Definition regular (response : string) : Prop :=
  Forall (fun line => regular_line (Str.strip line))
         (Str.split_lines (Str.strip response)).

(** A line that is exactly the character "-" or "*". *)
Definition bare_bullet (response : string) : Prop :=
  Exists (fun line => Str.strip line = "-" \/ Str.strip line = "*")
         (Str.split_lines (Str.strip response)).

(** The marker rule as the specification words it for C6: any digit followed by a dot. *)
Definition is_digit (c : ascii) : bool :=
  ((48 <=? Str.code c) && (Str.code c <=? 57))%N.

Definition strip_any_digit_marker (line : string) : string :=
  match line with
  | String d (String "." rest) =>
      if is_digit d then Str.strip rest
      else if Str.startswith_any line bullets then Str.strip (Str.slice_from 1 line)
      else line
  | _ =>
      if Str.startswith_any line bullets then Str.strip (Str.slice_from 1 line)
      else line
  end.

Definition parse_any_digit (response : string) : list string :=
  List.filter (fun s => (4 <=? String.length s)%nat)
    (map strip_any_digit_marker
       (List.filter (fun line => negb (blank line))
          (map Str.strip (Str.split_lines (Str.strip response))))).

(** Number of words of a text. *)
Definition word_count (text : string) : nat := length (Str.split text).

Definition complexity_of_words (n : nat) : LLM.complexity :=
  if (n <? 10)%nat then LLM.simple
  else if (n <? 20)%nat then LLM.medium
  else LLM.complex.

End ParseSpec.

(** ** Sample generators and responses *)
Module SampleLLM.
Import LLM.

Definition llm_disabled : LLMConfig :=
  {| cfg_llm_enabled := Some false; cfg_model_name := None; cfg_max_tokens := None;
     cfg_temperature := None; cfg_prompts := None; cfg_base_url := None;
     cfg_api_key := None |}.

(** The generator [SubGoalGenerator({'llm': {'enabled': False}})]. *)
Definition disabled_generator : SubGoalGenerator :=
  {| llm_config := llm_disabled; enabled := false;
     model_name := "llama-2-7b-chat"; max_tokens := 128; temperature := (7 # 10)%Q;
     prompts := empty_prompts; llm_client := None |}.

(** The generator [SubGoalGenerator({})] when the client module imports. *)
Definition default_generator : SubGoalGenerator :=
  {| llm_config := empty_llm_config; enabled := true;
     model_name := "llama-2-7b-chat"; max_tokens := 128; temperature := (7 # 10)%Q;
     prompts := empty_prompts; llm_client := Some (LlamaClient_init empty_llm_config) |}.

(** The text of the parsing example: three numbered lines and a blank
    line before the third. *)
Definition numbered_response : string :=
  "1. Find trees" +:+ Str.nl +:+ "2. Chop wood" +:+ Str.nl +:+ Str.nl +:+ "3. Return".

End SampleLLM.

(** ** The shape of the trees the planner builds *)
Module TreeShape.
Import MCTS.
Section WithParams.
Context {State F : Type}.

(** On a single path the node at address [i] has the node before it as
    parent and the node after it, if any, as its only child. *)
Definition path_parent (i : nat) : option nat :=
  match i with
  | O => None
  | S j => Some j
  end.

Definition path_children (len i : nat) : list nat :=
  if decide (S i < len)%nat then [S i] else [].

Definition path_action (subgoals : list string) (i : nat) (a : option string) : Prop :=
  match i with
  | O => a = None
  | S _ => exists s, a = Some s /\ s ∈ subgoals
  end.

Record path_node (subgoals : list string) (len i : nat) (n : MCTSNode State F)
    : Prop := {
  pn_parent : parent n = path_parent i;
  pn_children : children n = path_children len i;
  pn_depth : depth n = Z.of_nat i;
  pn_action : path_action subgoals i (action n);
  pn_visits : 0 <= visits n
}.

(** The arena is one path from the root at address [0] whose actions
    come from [subgoals], the candidate actions as the tree stores them;
    a node is visited at most as often as its parent. *)
Record single_path (subgoals : list string) (h : list (MCTSNode State F))
    : Prop := {
  sp_root : (0 < length h)%nat;
  sp_node : forall i n, h !! i = Some n -> path_node subgoals (length h) i n;
  sp_visits : forall i n m,
      h !! i = Some n -> h !! S i = Some m -> visits m <= visits n
}.

Definition root_visits (h : list (MCTSNode State F)) : option Z :=
  visits <$> h !! 0%nat.

(** The action of a node as the extraction loop appends it. *)
Definition appended (n : MCTSNode State F) : list string :=
  match action n with
  | Some a => if Str.truthy a then [a] else []
  | None => []
  end.

End WithParams.

(** A node after one pass of the backpropagation loop. *)
Definition visited {State F} `{FloatOps F} (v : F) (n : MCTSNode State F)
    : MCTSNode State F :=
  set_stats n (visits n + 1) (fadd (value n) v).

(** The child [expand] allocates under the node [n] at address [node]. *)
Definition new_child {State F} `{FloatOps F} (node : nat) (n : MCTSNode State F)
    (a : string) : MCTSNode State F :=
  {| state := state n; action := Some a; parent := Some node; children := [];
     visits := 0; value := of_int 0; depth := depth n + 1 |}.

End TreeShape.

(** ** Sample planners and trees *)
Module SamplePlanner.
Import LLM MCTS Planning Sample SampleLLM.

Definition config_with (mcts_simulations max_depth max_subgoals : option Z)
    (llm : option LLMConfig) : Config (option Q) :=
  {| cfg_enabled := None;
     cfg_mcts_simulations := mcts_simulations;
     cfg_max_depth := max_depth;
     cfg_exploration_constant := Some (of_int 1);
     cfg_subgoal_generation :=
       Some {| cfg_sg_enabled := None; cfg_max_subgoals := max_subgoals |};
     cfg_llm := llm |}.

(** The end-to-end scenario: 50 simulations, depth 3, exploration
    constant 1.0, the oracle disabled by ['llm': {'enabled': False}]. *)
Definition zombie_config : Config (option Q) :=
  config_with (Some 50) (Some 3) None (Some llm_disabled).

Definition zombie_planner : Planner (option Q) :=
  {| config := zombie_config; enabled := true; mcts_simulations := 50;
     max_depth := 3; exploration_constant := of_int 1; subgoal_enabled := true;
     max_subgoals := 5; llm := Some disabled_generator |}.

(** A configuration with [mcts_simulations = 0] and [max_subgoals = 0]. *)
Definition invalid_config : Config (option Q) :=
  config_with (Some 0) None (Some 0) (Some llm_disabled).

Definition invalid_planner : Planner (option Q) :=
  {| config := invalid_config; enabled := true; mcts_simulations := 0;
     max_depth := 10; exploration_constant := of_int 1; subgoal_enabled := true;
     max_subgoals := 0; llm := Some disabled_generator |}.

(** A planner that runs a single simulation. *)
Definition one_simulation_planner : Planner (option Q) :=
  {| config := config_with (Some 1) None None (Some llm_disabled); enabled := true;
     mcts_simulations := 1; max_depth := 10; exploration_constant := of_int 1;
     subgoal_enabled := true; max_subgoals := 5; llm := Some disabled_generator |}.

(** The default configuration, with the oracle enabled. *)
Definition default_config : Config (option Q) := config_with None None None None.

Definition default_planner : Planner (option Q) :=
  {| config := default_config; enabled := true; mcts_simulations := 100;
     max_depth := 10; exploration_constant := of_int 1; subgoal_enabled := true;
     max_subgoals := 5; llm := Some default_generator |}.

(** The planner has no working oracle: it holds no generator, or subgoal
    generation is switched off, or its generator is disabled. *)
Definition oracle_disabled {F} (self : Planner F) : Prop :=
  llm self = None \/ subgoal_enabled self = false
  \/ exists gen, llm self = Some gen
                 /\ (LLM.enabled gen = false \/ llm_client gen = None).

(** A root with one child for the action "find trees", both visited
    once: the tree after the first simulation on the candidate actions
    "find trees" and "chop wood". *)
Definition one_child_tree {State F} `{FloatOps F} (st : State) (v : F)
    : list (MCTSNode State F) :=
  [ {| state := st; action := None; parent := None; children := [1%nat];
       visits := 1; value := v; depth := 0 |};
    {| state := st; action := Some "find trees"; parent := Some 0%nat;
       children := []; visits := 1; value := v; depth := 1 |} ].

(** A subgoal that ends in a NUL character: ['find\x00']. *)
Definition find_nul : string := "find" +:+ String "000"%char EmptyString.

End SamplePlanner.

(** ** [LlamaClient.chat] and [_messages_to_prompt] of
    [src/llm/llama_client.py] *)
Module LlamaChat.
Import LLM.






Section WithState.
Context {State : Type}.


End WithState.
End LlamaChat.

(** ** [MCTS.search] of [src/planning/mcts.py] *)
Module Search.
Import MCTS.
Section WithParams.
Context {State F R : Type} `{FloatOps F} `{RandomGen F R}.

Definition dummy_actions : list string := ["action1"; "action2"; "action3"].

(** One pass of the loop of [search], on the arena and the generator. *)
Definition search_step (exploration_constant : F) (root : nat)
    (s : list (MCTSNode State F) * R) : result (list (MCTSNode State F) * R) :=
  node <- select (fst s) exploration_constant root ;;
  n <- deref (fst s) node ;;
  e <- (if depth n <? 10 then expand (fst s) (snd s) node dummy_actions
        else Ok (node, fst s, snd s)) ;;
  let vg := simulate (snd e) in
  h <- backpropagate (snd (fst e)) (fst (fst e)) (fst vg) ;;
  Ok (h, snd vg).

(** [MCTS.search]: the address of the returned child ([None] is Python's
    [None]), with the arena and the generator afterwards; the root is at
    address [0]. *)
Definition search (exploration_constant : F) (g : R) (root_state : State)
    (num_simulations : Z) : result (option nat * list (MCTSNode State F) * R) :=
  root <- MCTSNode_init [] root_state None None ;;
  hg <- for_range (Z.to_nat num_simulations) (search_step exploration_constant 0%nat)
                  ([root], g) ;;
  r <- deref (fst hg) 0%nat ;;
  match children r with
  | [] => Ok (None, fst hg, snd hg)
  | _ :: _ =>
      best <- py_max Z.gtb (fun c => cn <- deref (fst hg) c ;; Ok (visits cn))
                     (children r) ;;
      Ok (Some best, fst hg, snd hg)
  end.

(** The planner whose simulation loop is the loop of [search]: depth cap
    10, no oracle. *)
Definition as_planner (exploration_constant : F) (num_simulations : Z)
    : Planning.Planner F :=
  {| Planning.config :=
       {| Planning.cfg_enabled := None; Planning.cfg_mcts_simulations := None;
          Planning.cfg_max_depth := None; Planning.cfg_exploration_constant := None;
          Planning.cfg_subgoal_generation := None; Planning.cfg_llm := None |};
     Planning.enabled := true;
     Planning.mcts_simulations := num_simulations;
     Planning.max_depth := 10;
     Planning.exploration_constant := exploration_constant;
     Planning.subgoal_enabled := false;
     Planning.max_subgoals := 5;
     Planning.llm := None |}.

End WithParams.
End Search.

(** ** [src/utils/memory.py] *)
Module Memory.
Section WithTransition.
Context {A : Type}.

Record ReplayBuffer : Type := {
  capacity : Z;
  buffer : list A
}.

(** [ReplayBuffer.__init__] *)
Definition ReplayBuffer_init (capacity : Z) : ReplayBuffer :=
  {| capacity := capacity; buffer := [] |}.

(** [self.buffer.pop(0)] *)
Definition pop_front (l : list A) : result (list A) :=
  match l with
  | [] => Raise IndexError
  | _ :: rest => Ok rest
  end.

(** [ReplayBuffer.push] *)
Definition push (self : ReplayBuffer) (transition : A) : result ReplayBuffer :=
  kept <- (if capacity self <=? Z.of_nat (length (buffer self))
           then pop_front (buffer self)
           else Ok (buffer self)) ;;
  Ok {| capacity := capacity self; buffer := kept ++ [transition] |}.

(** [ReplayBuffer.__len__] *)
Definition len (self : ReplayBuffer) : Z := Z.of_nat (length (buffer self)).

(** The pushes of a list of transitions, one after the other. *)
Fixpoint push_all (self : ReplayBuffer) (transitions : list A) : result ReplayBuffer :=
  match transitions with
  | [] => Ok self
  | t :: rest => self' <- push self t ;; push_all self' rest
  end.

End WithTransition.
Arguments ReplayBuffer : clear implicits.
End Memory.

(** ** Trees in general *)
Module TreeWf.
Import MCTS.
Section WithParams.
Context {State F : Type}.

(** Every parent was allocated before its child. *)
Definition parents_below (h : list (MCTSNode State F)) : Prop :=
  forall i n p, h !! i = Some n -> parent n = Some p -> (p < i)%nat.

(** [on_path h node j]: [j] is [node] or one of its ancestors. *)
Inductive on_path (h : list (MCTSNode State F)) : nat -> nat -> Prop :=
| on_path_here node : on_path h node node
| on_path_up node n p j :
    h !! node = Some n -> parent n = Some p -> on_path h p j -> on_path h node j.

End WithParams.
End TreeWf.

(** ** A sample tree with two children *)
Module SampleTree.
Import MCTS.

(** A root with the children "find trees" and "chop wood", each visited
    once, the root twice. *)
Definition two_children_tree {State F} `{FloatOps F} (st : State) (v : F)
    : list (MCTSNode State F) :=
  [ {| state := st; action := None; parent := None; children := [1%nat; 2%nat];
       visits := 2; value := v; depth := 0 |};
    {| state := st; action := Some "find trees"; parent := Some 0%nat;
       children := []; visits := 1; value := v; depth := 1 |};
    {| state := st; action := Some "chop wood"; parent := Some 0%nat;
       children := []; visits := 1; value := v; depth := 1 |} ].

End SampleTree.

(** * Properties *)

(** ** Strings *)
Section StringFacts.

Lemma is_space_lower_char c : Str.is_space (Str.lower_char c) = Str.is_space c.
Proof. destruct c as [[] [] [] [] [] [] [] []]; reflexivity. Qed.

Lemma split_lower s : Str.split (Str.lower s) = map Str.lower (Str.split s).
Proof.
  induction s as [|c s IH]; [reflexivity|].
  cbn [Str.lower Str.split]. rewrite is_space_lower_char.
  destruct (Str.is_space c); [exact IH|].
  destruct s as [|c' s']; [reflexivity|].
  cbn [Str.lower] in *. rewrite is_space_lower_char.
  destruct (Str.is_space c').
  - rewrite IH. reflexivity.
  - rewrite IH. destruct (Str.split (String c' s')); reflexivity.
Qed.

Lemma word_count_lower s :
  length (Str.split (Str.lower s)) = ParseSpec.word_count s.
Proof. rewrite split_lower. apply length_map. Qed.

Lemma prefix_cons a b s t :
  String.prefix (String a s) (String b t) = bool_decide (a = b) && String.prefix s t.
Proof.
  cbn [String.prefix]. destruct (ascii_dec a b) as [->|Hne].
  - rewrite bool_decide_eq_true_2; [|reflexivity]. reflexivity.
  - rewrite bool_decide_eq_false_2; [|exact Hne]. reflexivity.
Qed.

End StringFacts.
Section ParseFacts.
Import LLM.

Lemma prefix_nil s : String.prefix "" s = true.
Proof. destruct s; reflexivity. Qed.

Lemma prefix_cons_nil a s : String.prefix (String a s) "" = false.
Proof. reflexivity. Qed.

(** No string of the model, whose code points are below 256, starts with
    the misread bullet. *)
Lemma startswith_misread_bullet l :
  Str.startswith_codes l misread_bullet = false.
Proof.
  destruct l as [|a [|b r]]; cbn [Str.startswith_codes misread_bullet].
  - reflexivity.
  - apply andb_false_r.
  - assert (Hb : (Str.code b =? 8364)%N = false).
    { apply N.eqb_neq. unfold Str.code. pose proof (N_ascii_bounded b). lia. }
    rewrite Hb. apply andb_false_r.
Qed.

(** The marker branch of [parse_line] on a regular line is the
    specification's [strip_marker]. *)
Lemma marker_branch l :
  ParseSpec.regular_line l ->
  (if Str.startswith_any l markers || Str.startswith_codes l misread_bullet then
     c <- Str.getitem l 1 ;;
     if Ascii.eqb c "."%char
     then Ok (Str.strip (Str.slice_from 2 l))
     else Ok (Str.strip (Str.slice_from 1 l))
   else Ok l) = Ok (ParseSpec.strip_marker l).
Proof.
  intros [Hwide Hreg]. rewrite Hwide, orb_false_r. revert Hreg.
  unfold ParseSpec.strip_marker, Str.startswith_any,
    markers, ParseSpec.numbered, ParseSpec.bullets, Str.startswith.
  cbn [existsb].
  destruct l as [|a [|b r]].
  - intros _. reflexivity.
  - rewrite !prefix_cons, !prefix_cons_nil, !prefix_nil.
    intros Hreg.
    repeat case_bool_decide; subst; cbn in *;
      try reflexivity; try discriminate;
      try (destruct Hreg as (c & Hc & _); [reflexivity|discriminate]).
  - rewrite !prefix_cons, !prefix_nil.
    intros Hreg.
    repeat case_bool_decide; subst; cbn in *;
      try reflexivity; try discriminate;
      try (destruct Hreg as (c & Hc & Hdot); [reflexivity|congruence]);
      rewrite (proj2 (Ascii.eqb_neq _ _)) by congruence; reflexivity.
Qed.

Lemma regular_line_no_bullet l :
  Str.startswith_any l ParseSpec.bullets = false -> ParseSpec.regular_line l.
Proof.
  intros Hno. split; [apply startswith_misread_bullet|].
  rewrite Hno. discriminate.
Qed.

Lemma parse_line_spec line acc :
  ParseSpec.regular_line (Str.strip line) ->
  parse_line line acc = Ok (acc ++ ParseSpec.fragments [line]).
Proof.
  intros Hreg. unfold parse_line, ParseSpec.fragments.
  cbn [map List.filter]. unfold ParseSpec.blank.
  destruct (Str.truthy (Str.strip line)) eqn:Hline; cbn [negb].
  - rewrite (marker_branch _ Hreg). cbn [rbind map List.filter].
    assert (Hlen : Str.truthy (ParseSpec.strip_marker (Str.strip line))
                   && (3 <? Str.len (ParseSpec.strip_marker (Str.strip line)))
                   = (4 <=? String.length (ParseSpec.strip_marker (Str.strip line)))%nat).
    { unfold Str.len.
      destruct (ParseSpec.strip_marker (Str.strip line)) as [|c s]; [reflexivity|].
      cbn [Str.truthy andb].
      destruct (Nat.leb_spec 4 (String.length (String c s)));
        [apply Z.ltb_lt | apply Z.ltb_ge]; lia. }
    rewrite Hlen.
    destruct (4 <=? String.length (ParseSpec.strip_marker (Str.strip line)))%nat;
      [reflexivity | by rewrite app_nil_r].
  - by rewrite app_nil_r.
Qed.

Lemma fragments_cons line lines :
  ParseSpec.fragments (line :: lines)
  = ParseSpec.fragments [line] ++ ParseSpec.fragments lines.
Proof.
  unfold ParseSpec.fragments. cbn [map List.filter].
  destruct (negb (ParseSpec.blank (Str.strip line))); [|reflexivity].
  cbn [map List.filter].
  destruct (4 <=? String.length (ParseSpec.strip_marker (Str.strip line)))%nat;
    reflexivity.
Qed.

Lemma parse_lines_spec lines : forall acc,
  Forall (fun line => ParseSpec.regular_line (Str.strip line)) lines ->
  parse_lines lines acc = Ok (acc ++ ParseSpec.fragments lines).
Proof.
  induction lines as [|line lines IH]; intros acc Hreg.
  - cbn. by rewrite app_nil_r.
  - inversion Hreg as [|? ? Hline Hrest]; subst.
    cbn [parse_lines]. rewrite (parse_line_spec _ _ Hline). cbn [rbind].
    rewrite (IH _ Hrest), (fragments_cons line lines), app_assoc. reflexivity.
Qed.

Lemma parse_subgoals_regular response :
  ParseSpec.regular response ->
  _parse_subgoals response = Ok (ParseSpec.parse response).
Proof.
  intros Hreg. unfold _parse_subgoals.
  destruct response as [|c s]; [reflexivity|].
  cbn [Str.truthy negb]. apply (parse_lines_spec _ [] Hreg).
Qed.

(** [parse_line] raises nothing but [IndexError]. *)
Lemma parse_line_raises line acc e :
  parse_line line acc = Raise e -> e = IndexError.
Proof.
  unfold parse_line, Str.getitem.
  destruct (negb (Str.truthy (Str.strip line))); [discriminate|].
  destruct (Str.startswith_any (Str.strip line) markers
            || Str.startswith_codes (Str.strip line) misread_bullet).
  - destruct (String.get 1 (Str.strip line)) as [c|]; cbn [rbind].
    + destruct (Ascii.eqb c "."); cbn [rbind];
        match goal with |- (if ?b then _ else _) = _ -> _ => destruct b end;
        discriminate.
    + congruence.
  - cbn [rbind].
    match goal with |- (if ?b then _ else _) = _ -> _ => destruct b end;
      discriminate.
Qed.

Lemma parse_line_bare_bullet line acc :
  Str.strip line = "-" \/ Str.strip line = "*" ->
  parse_line line acc = Raise IndexError.
Proof. unfold parse_line. intros [-> | ->]; reflexivity. Qed.

Lemma parse_lines_bare_bullet lines : forall acc,
  Exists (fun line => Str.strip line = "-" \/ Str.strip line = "*") lines ->
  parse_lines lines acc = Raise IndexError.
Proof.
  induction lines as [|line lines IH]; intros acc Hex; [inversion Hex|].
  cbn [parse_lines].
  destruct (parse_line line acc) as [acc'|e] eqn:Hline; cbn [rbind].
  - inversion Hex as [? ? Hbare|? ? Hrest]; subst.
    + rewrite (parse_line_bare_bullet _ _ Hbare) in Hline. discriminate.
    + apply (IH _ Hrest).
  - by rewrite (parse_line_raises _ _ _ Hline).
Qed.

Lemma parse_subgoals_bare_bullet response :
  ParseSpec.bare_bullet response ->
  _parse_subgoals response = Raise IndexError.
Proof.
  intros Hbare. unfold _parse_subgoals.
  destruct response as [|c s]; [inversion Hbare as [? ? [H|H]|? ? H]; inversion H|].
  cbn [Str.truthy negb]. apply (parse_lines_bare_bullet _ [] Hbare).
Qed.

End ParseFacts.

(** ** The subgoal oracle *)
Section OracleClaims.
Import LLM.
Context {State : Type}.

Lemma generate_subgoals_returns (env : Env State) self goal st :
  exists subgoals, generate_subgoals env self goal st = Ok subgoals.
Proof.
  unfold generate_subgoals.
  destruct (enabled self); [|eauto].
  destruct (llm_client self) as [client|]; [|eauto].
  match goal with |- exists _, try_except ?b _ = _ => destruct b end;
    cbn [try_except]; eauto.
Qed.

Lemma generate_subgoals_disabled (env : Env State) self goal st :
  enabled self = false \/ llm_client self = None ->
  generate_subgoals env self goal st = Ok (_generate_fallback_subgoals goal).
Proof.
  unfold generate_subgoals. intros [-> | ->]; [reflexivity|].
  destruct (enabled self); reflexivity.
Qed.

Lemma generate_subgoals_remote (env : Env State) self client goal st prompt :
  enabled self = true ->
  llm_client self = Some client ->
  _create_subgoal_prompt env self goal st = Ok prompt ->
  generate_subgoals env self goal st
  = try_except
      (subgoals <- _parse_subgoals
                     (LlamaClient_generate env client prompt (max_tokens self)
                                           (temperature self)) ;;
       Ok (slice_to subgoals 5))
      (fun _ => Ok (_generate_fallback_subgoals goal)).
Proof.
  intros Hen Hcl Hprompt. unfold generate_subgoals.
  rewrite Hen, Hcl, Hprompt. reflexivity.
Qed.

Lemma slice_to_5 {A} (l : list A) : slice_to l 5 = take 5 l.
Proof. reflexivity. Qed.

Lemma length_fallback goal : length (_generate_fallback_subgoals goal) = 4%nat.
Proof.
  unfold _generate_fallback_subgoals, fallback_subgoals. cbn [first_match].
  repeat match goal with |- context [if ?b then _ else _] => destruct b end;
    reflexivity.
Qed.

(** C6 (as amended): on every response none of whose lines starts with the
    misread bullet (the eighth prefix of the code, U+00E2 U+20AC U+00A2)
    and whose lines starting with "-" or "*" have a second character other
    than a dot, [_parse_subgoals] splits the text into lines, drops the
    blank ones, strips a leading marker "1." to "5.", "-" or "*", and
    discards the fragments shorter than four characters;
    [generate_subgoals] keeps the first five entries of the parsed list,
    and never returns more than five; the numbered example parses to its
    three subgoals. *)
Theorem parse_subgoals_rule :
  (forall response,
      ParseSpec.regular response ->
      _parse_subgoals response = Ok (ParseSpec.parse response)
      /\ Forall (fun s => (4 <= String.length s)%nat) (ParseSpec.parse response))
  /\ (forall (env : Env State) self client goal st prompt,
         enabled self = true ->
         llm_client self = Some client ->
         _create_subgoal_prompt env self goal st = Ok prompt ->
         ParseSpec.regular
           (LlamaClient_generate env client prompt (max_tokens self) (temperature self)) ->
         generate_subgoals env self goal st
         = Ok (take 5 (ParseSpec.parse
                         (LlamaClient_generate env client prompt (max_tokens self)
                                               (temperature self)))))
  /\ (forall (env : Env State) self goal st subgoals,
         generate_subgoals env self goal st = Ok subgoals -> (length subgoals <= 5)%nat)
  /\ _parse_subgoals SampleLLM.numbered_response
     = Ok ["Find trees"; "Chop wood"; "Return"].
Proof.
  split; [|split; [|split]].
  - intros response Hreg. split; [exact (parse_subgoals_regular _ Hreg)|].
    unfold ParseSpec.parse, ParseSpec.fragments.
    apply Forall_forall. intros s Hs.
    apply list_elem_of_In, filter_In in Hs. destruct Hs as [_ Hs].
    by apply Nat.leb_le.
  - intros env self client goal st prompt Hen Hcl Hprompt Hreg.
    rewrite (generate_subgoals_remote _ _ _ _ _ _ Hen Hcl Hprompt).
    rewrite (parse_subgoals_regular _ Hreg). reflexivity.
  - intros env self goal st subgoals. unfold generate_subgoals.
    destruct (enabled self) eqn:Hen, (llm_client self) as [client|] eqn:Hcl;
      try (intros [= <-]; rewrite length_fallback; lia).
    match goal with |- try_except ?b _ = _ -> _ => destruct b as [l|e] eqn:Hbody end;
      cbn [try_except]; [|intros [= <-]; rewrite length_fallback; lia].
    intros [= <-].
    destruct (_create_subgoal_prompt env self goal st) as [prompt|]; [|discriminate].
    cbn [rbind] in Hbody.
    destruct (_parse_subgoals _) as [parsed|]; [|discriminate].
    cbn [rbind] in Hbody. injection Hbody as <-.
    rewrite slice_to_5, length_take. lia.
  - reflexivity.
Qed.

(** C7: with the oracle disabled, [generate_subgoals("collect wood", state)]
    is the fixed four-entry list, whatever the state and the environment. *)
Theorem generate_subgoals_collect_wood (env : Env State) self st :
  enabled self = false \/ llm_client self = None ->
  generate_subgoals env self "collect wood" st
  = Ok ["find trees"; "chop wood"; "gather resources"; "return to base"].
Proof. intros Hoff. by rewrite (generate_subgoals_disabled _ _ _ _ Hoff). Qed.

(** C9 (as amended): [analyze_task] always returns, and the task of its
    result is the one it was given.  With the oracle disabled, or without
    a client, or when building the prompt raises, the result is the fixed
    fallback analysis, of complexity [medium].  With the oracle enabled, a
    client and the prompt built, the analysis is the text
    [LlamaClient.generate] returns for that prompt, which is the answer of
    the backend when it answers with status 200, and the complexity is
    [unknown] when that text is empty and otherwise follows its word
    count: fewer than 10 words [simple], fewer than 20 [medium], else
    [complex]. *)
Theorem analyze_task_complexity (env : Env State) self task_text :
  exists r,
    analyze_task env self task_text = Ok r
    /\ task r = task_text
    /\ (enabled self = false \/ llm_client self = None
        \/ (exists e,
              str_format env
                (get_default (prompt_task_analysis (prompts self))
                   "Analyze the current task: {task}. What are the key steps needed?")
                "task" task_text = Raise e) ->
        r = _analyze_task_fallback task_text)
    /\ (forall client prompt,
          enabled self = true ->
          llm_client self = Some client ->
          str_format env
            (get_default (prompt_task_analysis (prompts self))
               "Analyze the current task: {task}. What are the key steps needed?")
            "task" task_text = Ok prompt ->
          analysis r
          = LlamaClient_generate env client prompt (max_tokens self) (temperature self)
          /\ (forall response,
                http_post env client prompt (max_tokens self) (temperature self)
                = Some (200, response) ->
                analysis r = response)
          /\ (analysis r = "" -> task_complexity r = unknown)
          /\ (analysis r <> "" ->
              task_complexity r
              = ParseSpec.complexity_of_words (ParseSpec.word_count (analysis r)))).
Proof.
  unfold analyze_task.
  destruct (enabled self) eqn:Hen;
    [|eexists; split; [reflexivity|]; split; [reflexivity|];
      split; [reflexivity | intros ? ? ?; discriminate]].
  destruct (llm_client self) as [client|] eqn:Hcl;
    [|eexists; split; [reflexivity|]; split; [reflexivity|];
      split; [reflexivity | intros ? ? ? ?; discriminate]].
  destruct (str_format env _ "task" task_text) as [prompt|e]; cbn [rbind try_except].
  - eexists. split; [reflexivity|]. split; [reflexivity|]. split.
    { intros [Hoff | [Hoff | [e He]]]; discriminate. }
    intros client' prompt' _ [= <-] [= <-]. cbn [analysis task_complexity].
    split; [reflexivity|]. split.
    { intros response Hpost. unfold LlamaClient_generate. by rewrite Hpost. }
    unfold _estimate_complexity.
    destruct (LlamaClient_generate env client prompt (max_tokens self) (temperature self))
      as [|c s] eqn:Hresp; [split; [reflexivity | congruence]|].
    split; [discriminate|]. intros _. cbn [Str.truthy negb].
    rewrite word_count_lower. unfold ParseSpec.complexity_of_words.
    set (n := ParseSpec.word_count (String c s)).
    destruct (Nat.ltb_spec n 10), (Nat.ltb_spec n 20);
      repeat match goal with
             | |- context [Z.of_nat n <? ?k] =>
                 let H := fresh in
                 destruct (Z.ltb_spec (Z.of_nat n) k) as [H|H]; try lia
             end; reflexivity.
  - eexists. split; [reflexivity|]. split; [reflexivity|]. split; [reflexivity|].
    intros client' prompt' _ _ Hfmt. discriminate.
Qed.

(** C10: a response with a line that is exactly "-" or "*" makes
    [_parse_subgoals] raise [IndexError]; [generate_subgoals] catches it
    and returns the rule-table fallback of the goal, and it returns a list
    (no exception) in every environment. *)
Theorem parse_subgoals_raises_and_is_caught :
  (forall response,
      ParseSpec.bare_bullet response ->
      _parse_subgoals response = Raise IndexError)
  /\ (forall (env : Env State) self client goal st prompt,
         enabled self = true ->
         llm_client self = Some client ->
         _create_subgoal_prompt env self goal st = Ok prompt ->
         ParseSpec.bare_bullet
           (LlamaClient_generate env client prompt (max_tokens self) (temperature self)) ->
         generate_subgoals env self goal st = Ok (_generate_fallback_subgoals goal))
  /\ (forall (env : Env State) self goal st,
         exists subgoals, generate_subgoals env self goal st = Ok subgoals).
Proof.
  split; [exact parse_subgoals_bare_bullet|]. split.
  - intros env self client goal st prompt Hen Hcl Hprompt Hbare.
    rewrite (generate_subgoals_remote _ _ _ _ _ _ Hen Hcl Hprompt).
    rewrite (parse_subgoals_bare_bullet _ Hbare). reflexivity.
  - exact generate_subgoals_returns.
Qed.

End OracleClaims.

(** C6, as the specification words it, fails: "6. Find trees" keeps its marker, where
    stripping any digit followed by a dot would give "Find trees". *)
Lemma parse_subgoals_digit_six :
  LLM._parse_subgoals "6. Find trees" = Ok ["6. Find trees"]
  /\ ParseSpec.parse_any_digit "6. Find trees" = ["Find trees"].
Proof. split; reflexivity. Qed.

Lemma parse_subgoals_rule_witness :
  ParseSpec.regular SampleLLM.numbered_response
  /\ LLM._parse_subgoals SampleLLM.numbered_response
     = Ok (ParseSpec.parse SampleLLM.numbered_response).
Proof.
  assert (Hreg : ParseSpec.regular SampleLLM.numbered_response).
  { unfold ParseSpec.regular.
    replace (Str.split_lines (Str.strip SampleLLM.numbered_response))
      with ["1. Find trees"; "2. Chop wood"; ""; "3. Return"] by reflexivity.
    repeat (apply List.Forall_cons; [apply regular_line_no_bullet; reflexivity|]).
    apply List.Forall_nil. }
  split; [exact Hreg|].
  exact (proj1 (proj1 (@parse_subgoals_rule unit) _ Hreg)).
Defined.

Lemma generate_subgoals_collect_wood_witness :
  (LLM.enabled SampleLLM.disabled_generator = false
   \/ LLM.llm_client SampleLLM.disabled_generator = None)
  /\ LLM.generate_subgoals Sample.offline SampleLLM.disabled_generator
       "collect wood" (Some tt)
     = Ok ["find trees"; "chop wood"; "gather resources"; "return to base"].
Proof.
  split; [left; reflexivity|].
  apply generate_subgoals_collect_wood. left; reflexivity.
Defined.

(** C9, as the specification words it, fails: with the oracle disabled the rationale
    "Basic task analysis" has three words and the complexity is [medium],
    not [simple]. *)
Lemma analyze_task_fallback_medium :
  exists r,
    LLM.analyze_task Sample.offline SampleLLM.disabled_generator "collect wood" = Ok r
    /\ ParseSpec.word_count (LLM.analysis r) = 3%nat
    /\ LLM.task_complexity r = LLM.medium
    /\ ParseSpec.complexity_of_words (ParseSpec.word_count (LLM.analysis r)) = LLM.simple.
Proof. eexists. split; [reflexivity|]. repeat split. Qed.

(** With a backend that answers with an empty text the complexity is
    [unknown]. *)
Lemma analyze_task_empty_answer_unknown :
  exists r,
    LLM.analyze_task (Sample.answering 200 "") SampleLLM.default_generator "collect wood"
    = Ok r
    /\ LLM.task_complexity r = LLM.unknown.
Proof. eexists. split; reflexivity. Qed.

(** With a backend that answers, the analysis is the answer and the
    complexity follows its word count; with a backend that cannot be
    reached it is the canned text of the client, not the fallback
    analysis. *)
Lemma analyze_task_backend_text :
  LLM.analyze_task (Sample.answering 200 "Find the trees, then chop the wood")
    SampleLLM.default_generator "collect wood"
  = Ok {| LLM.task := "collect wood";
          LLM.analysis := "Find the trees, then chop the wood";
          LLM.task_complexity := LLM.simple;
          LLM.estimated_steps := 2 |}
  /\ exists r,
       LLM.analyze_task Sample.offline SampleLLM.default_generator "collect wood" = Ok r
       /\ LLM.analysis r
          = LLM._fallback_generation
              "Analyze the current task: collect wood. What are the key steps needed?"
       /\ LLM.task_complexity r = LLM.medium.
Proof. split; [reflexivity|]. eexists. split; [reflexivity|]. split; reflexivity. Qed.

Lemma parse_subgoals_raises_and_is_caught_witness :
  ParseSpec.bare_bullet "-"
  /\ LLM._parse_subgoals "-" = Raise IndexError.
Proof.
  assert (Hbare : ParseSpec.bare_bullet "-") by (constructor; left; reflexivity).
  split; [exact Hbare|].
  exact (proj1 (@parse_subgoals_raises_and_is_caught unit) _ Hbare).
Defined.

(** ** The search tree *)
Section TreeFacts.
Import MCTS TreeShape.
Context {State F R : Type} `{FloatOps F} `{RandomGen F R}.
Implicit Types (h : list (MCTSNode State F)) (n m : MCTSNode State F).

Lemma deref_lookup h a n : h !! a = Some n -> deref h a = Ok n.
Proof. unfold deref. by intros ->. Qed.

(** [select] only returns a node without children. *)
Lemma select_loop_childless fuel : forall h C node r,
  select_loop fuel h C node = Ok r ->
  exists n, h !! r = Some n /\ children n = [].
Proof.
  induction fuel as [|fuel IH]; intros h C node r; [discriminate|].
  cbn [select_loop]. unfold deref at 1.
  destruct (h !! node) as [n|] eqn:Hn; [|discriminate]. cbn [rbind].
  destruct (children n) as [|c cs] eqn:Hcs.
  - intros [= <-]. eauto.
  - cbn [is_fully_expanded length Nat.leb negb].
    destruct (py_max _ _ _) as [best|]; [|discriminate]. cbn [rbind].
    apply IH.
Qed.

Lemma path_children_last len i : S i = len -> path_children len i = [].
Proof. intros <-. unfold path_children. case_decide; [lia|reflexivity]. Qed.

Lemma path_children_inner len i : (S i < len)%nat -> path_children len i = [S i].
Proof. intros Hlt. unfold path_children. case_decide; [reflexivity|lia]. Qed.

(** On a path the UCB value of the child of [i] is defined. *)
Lemma ucb_on_path subgoals h C i n m :
  single_path subgoals h ->
  h !! i = Some n -> h !! S i = Some m ->
  exists u, get_ucb_value h m C = Ok u.
Proof.
  intros Hp Hn Hm. unfold get_ucb_value.
  destruct (Z.eqb_spec (visits m) 0) as [|Hne]; [eauto|].
  rewrite (pn_parent _ _ _ _ (sp_node _ _ Hp _ _ Hm)). cbn [path_parent].
  rewrite (deref_lookup _ _ _ Hn). cbn [rbind].
  pose proof (pn_visits _ _ _ _ (sp_node _ _ Hp _ _ Hm)).
  pose proof (sp_visits _ _ Hp _ _ _ Hn Hm).
  destruct (Z.leb_spec (visits n) 0); [lia|eauto].
Qed.

(** On a path [select] walks from any node to the last one. *)
Lemma select_loop_path subgoals h C :
  single_path subgoals h ->
  forall d i fuel,
    (i + S d = length h)%nat -> (d < fuel)%nat ->
    select_loop fuel h C i = Ok (length h - 1)%nat.
Proof.
  intros Hp. induction d as [|d IH]; intros i fuel Hlen Hfuel;
    (destruct fuel as [|fuel]; [lia|]); cbn [select_loop];
    (destruct (h !! i) as [n|] eqn:Hn;
     [|apply lookup_ge_None in Hn; lia]);
    rewrite (deref_lookup _ _ _ Hn); cbn [rbind];
    rewrite (pn_children _ _ _ _ (sp_node _ _ Hp _ _ Hn)).
  - rewrite path_children_last by lia. f_equal. lia.
  - rewrite path_children_inner by lia.
    cbn [is_fully_expanded length Nat.leb negb py_max].
    destruct (h !! S i) as [m|] eqn:Hm; [|apply lookup_ge_None in Hm; lia].
    rewrite (deref_lookup _ _ _ Hm). cbn [rbind].
    destruct (ucb_on_path _ _ C _ _ _ Hp Hn Hm) as [u ->].
    cbn [rbind max_loop]. apply IH; lia.
Qed.

Lemma select_path subgoals h C :
  single_path subgoals h -> select h C 0%nat = Ok (length h - 1)%nat.
Proof.
  intros Hp. pose proof (sp_root _ _ Hp).
  apply (select_loop_path _ _ _ Hp (length h - 1)%nat); lia.
Qed.

End TreeFacts.
Section TreeFacts2.
Import MCTS TreeShape.
Context {State F R : Type} `{FloatOps F} `{RandomGen F R}.
Implicit Types (h : list (MCTSNode State F)) (n m : MCTSNode State F).

Lemma filter_not_in_nil (acts : list string) :
  List.filter (fun a => not_in a []) acts = acts.
Proof.
  induction acts as [|a acts IH]; [reflexivity|].
  cbn [List.filter not_in existsb negb]. f_equal. exact IH.
Qed.

Lemma np_str_cons c s :
  Str.np_str (String c s)
  = match Str.np_str s with
    | EmptyString => if (Str.code c =? 0)%N then EmptyString else String c EmptyString
    | r => String c r
    end.
Proof. reflexivity. Qed.

(** The NumPy string of a NumPy string is itself. *)
Lemma np_str_idempotent s : Str.np_str (Str.np_str s) = Str.np_str s.
Proof.
  induction s as [|c s IH]; [reflexivity|].
  rewrite np_str_cons. destruct (Str.np_str s) as [|c' r] eqn:Hs.
  - destruct (Str.code c =? 0)%N eqn:Hc; [reflexivity|].
    rewrite np_str_cons. cbn [Str.np_str]. by rewrite Hc.
  - rewrite np_str_cons, IH. reflexivity.
Qed.

Lemma np_str_in_map a (subgoals : list string) :
  a ∈ subgoals -> Str.np_str a ∈ map Str.np_str subgoals.
Proof. intros Ha. apply list_elem_of_In, in_map, list_elem_of_In, Ha. Qed.

Lemma in_map_np_str a (subgoals : list string) :
  a ∈ map Str.np_str subgoals -> exists s, s ∈ subgoals /\ a = Str.np_str s.
Proof.
  intros Ha. apply list_elem_of_In, in_map_iff in Ha as (s & <- & Hs).
  exists s. split; [by apply list_elem_of_In | reflexivity].
Qed.

(** A list of strings without trailing NUL characters is stored as it is. *)
Lemma map_np_str_fixed (subgoals : list string) :
  Forall (fun s => Str.np_str s = s) subgoals -> map Str.np_str subgoals = subgoals.
Proof.
  induction 1 as [|s l Hs _ IH]; [reflexivity|]. cbn [map]. by rewrite Hs, IH.
Qed.

(** [expand] on a node without children draws from the whole action list
    and allocates the NumPy string of the drawn action as the only child. *)
Lemma expand_childless h (g : R) node n a0 rest :
  h !! node = Some n -> children n = [] ->
  exists a,
    (a0 :: rest) !! (fst (rand_index g (length (a0 :: rest))) mod length (a0 :: rest))%nat
    = Some a
    /\ expand h g node (a0 :: rest)
       = Ok (length h,
             <[node := set_children n [length h]]>
               (h ++ [new_child node n (Str.np_str a)]),
             snd (rand_index g (length (a0 :: rest)))).
Proof.
  intros Hn Hcs.
  destruct (lookup_lt_is_Some_2 (a0 :: rest)
              (fst (rand_index g (length (a0 :: rest))) mod length (a0 :: rest))%nat)
    as [a Ha].
  { apply Nat.mod_upper_bound. cbn [length]. lia. }
  exists a. split; [exact Ha|].
  unfold expand. rewrite (deref_lookup _ _ _ Hn). cbn [rbind].
  rewrite Hcs. cbn [mapM rbind]. rewrite filter_not_in_nil, Ha.
  unfold add_child, MCTSNode_init. rewrite (deref_lookup _ _ _ Hn). cbn [rbind].
  rewrite Hcs. reflexivity.
Qed.

(** The law of the action [expand] gives the child of a node without
    children: every position of the whole action list has the same
    probability. *)
Lemma expand_law_childless h node n a0 rest :
  h !! node = Some n -> children n = [] ->
  expand_law h node (a0 :: rest)
  = Ok (map (fun s => (Some (Str.np_str s), 1 # Pos.of_nat (length (a0 :: rest))))
            (a0 :: rest)).
Proof.
  intros Hn Hcs. unfold expand_law. rewrite (deref_lookup _ _ _ Hn). cbn [rbind].
  rewrite Hcs. cbn [mapM rbind]. rewrite filter_not_in_nil.
  unfold choice_law. by rewrite map_map.
Qed.

Lemma total_weight_constant {A B} (f : A -> B) (w : Q) (items : list A) :
  (total_weight (map (fun a => (f a, w)) items)
   == inject_Z (Z.of_nat (length items)) * w)%Q.
Proof.
  induction items as [|a items IH].
  - cbn. ring.
  - cbn [map total_weight fold_right snd length].
    change (fold_right (fun ap acc => (snd ap + acc)%Q) 0%Q
              (map (fun a => (f a, w)) items))
      with (total_weight (map (fun a => (f a, w)) items)).
    rewrite IH, Nat2Z.inj_succ. unfold Z.succ. rewrite inject_Z_plus. ring.
Qed.

(** The law of [np.random.choice] on a list with an item is a probability
    law. *)
Lemma choice_law_total (items : list string) :
  items <> [] -> (total_weight (choice_law items) == 1)%Q.
Proof.
  intros Hne. unfold choice_law. rewrite total_weight_constant.
  assert (Hlen : length items <> 0%nat) by (by destruct items).
  unfold Qeq, Qmult, inject_Z. cbn [Qnum Qden].
  rewrite Pos.mul_1_l.
  rewrite <- (positive_nat_Z (Pos.of_nat (length items))), Nat2Pos.id by exact Hlen.
  lia.
Qed.

Lemma visited_fields v n :
  parent (visited v n) = parent n /\ children (visited v n) = children n
  /\ depth (visited v n) = depth n /\ action (visited v n) = action n
  /\ visits (visited v n) = visits n + 1 /\ state (visited v n) = state n.
Proof. repeat split. Qed.

(** [backpropagate] from the node at address [i] of a path visits the
    nodes at addresses [0] to [i] once each. *)
Lemma backpropagate_loop_path v : forall i h fuel,
  (forall j n, h !! j = Some n -> parent n = path_parent j) ->
  (i < length h)%nat -> (i < fuel)%nat ->
  backpropagate_loop fuel h (Some i) v
  = Ok (map (visited v) (take (S i) h) ++ drop (S i) h).
Proof.
  induction i as [|i IH]; intros h fuel Hpar Hlen Hfuel;
    (destruct fuel as [|fuel]; [lia|]); cbn [backpropagate_loop];
    destruct (lookup_lt_is_Some_2 h _ Hlen) as [n Hn];
    rewrite (deref_lookup _ _ _ Hn); cbn [rbind];
    change (set_stats n (visits n + 1) (fadd (value n) v)) with (visited v n);
    destruct (visited_fields v n) as (-> & _); rewrite (Hpar _ _ Hn);
    cbn [path_parent].
  - destruct h as [|n0 h]; [discriminate|]. cbn in Hn. injection Hn as ->.
    destruct fuel; reflexivity.
  - rewrite IH; [| |rewrite length_insert; lia|lia].
    + rewrite take_insert_ge by lia.
      rewrite drop_insert_ge by lia. rewrite Nat.sub_diag.
      rewrite (drop_S _ _ _ Hn). cbn [insert list_insert].
      rewrite (take_S_r _ _ _ Hn), map_app, <- app_assoc. reflexivity.
    + intros j m Hm.
      destruct (decide (S i = j)) as [<-|Hne].
      * rewrite list_lookup_insert_eq in Hm by lia. injection Hm as <-.
        destruct (visited_fields v n) as (-> & _). apply (Hpar _ _ Hn).
      * rewrite list_lookup_insert_ne in Hm by exact Hne. apply (Hpar _ _ Hm).
Qed.

Lemma backpropagate_path subgoals h v :
  single_path subgoals h ->
  backpropagate h (length h - 1)%nat v = Ok (map (visited v) h).
Proof.
  intros Hp. pose proof (sp_root _ _ Hp). unfold backpropagate.
  rewrite backpropagate_loop_path; [| |lia|lia].
  - replace (S (length h - 1)) with (length h) by lia.
    by rewrite firstn_all, drop_all, app_nil_r.
  - intros j n Hn. apply (pn_parent _ _ _ _ (sp_node _ _ Hp _ _ Hn)).
Qed.

Lemma backpropagate_last subgoals h node v :
  single_path subgoals h -> S node = length h ->
  backpropagate h node v = Ok (map (visited v) h).
Proof.
  intros Hp Hnode. replace node with (length h - 1)%nat by lia.
  apply (backpropagate_path _ _ _ Hp).
Qed.

Lemma single_path_visited subgoals h v :
  single_path subgoals h -> single_path subgoals (map (visited v) h).
Proof.
  intros Hp. split.
  - rewrite length_map. apply (sp_root _ _ Hp).
  - intros i n' Hn'. change (map (visited v) h) with (visited v <$> h) in Hn'.
    apply list_lookup_fmap_Some in Hn' as (n & -> & Hn).
    destruct (sp_node _ _ Hp _ _ Hn) as [? ? ? ? ?].
    rewrite length_map. split; cbn; try assumption; lia.
  - intros i n' m' Hn' Hm'. change (map (visited v) h) with (visited v <$> h) in *.
    apply list_lookup_fmap_Some in Hn' as (n & -> & Hn).
    apply list_lookup_fmap_Some in Hm' as (m & -> & Hm).
    pose proof (sp_visits _ _ Hp _ _ _ Hn Hm). cbn. lia.
Qed.

End TreeFacts2.
Section PlannerLoop.
Import LLM MCTS TreeShape Planning.
Context {State F R : Type} `{FloatOps F} `{RandomGen F R}.
Implicit Types (h : list (MCTSNode State F)) (n m : MCTSNode State F).
Implicit Types (self : Planner F).

(** The arena after [expand] on the last node of a path. *)
Lemma lookup_expanded h n a i x :
  (0 < length h)%nat ->
  h !! (length h - 1)%nat = Some n ->
  <[(length h - 1)%nat := set_children n [length h]]>
    (h ++ [new_child (length h - 1) n a]) !! i = Some x ->
  (i = (length h - 1)%nat /\ x = set_children n [length h])
  \/ ((i < length h - 1)%nat /\ h !! i = Some x)
  \/ (i = length h /\ x = new_child (length h - 1) n a).
Proof.
  intros Hpos Hn Hx.
  destruct (decide (i = length h - 1)%nat) as [->|Hne].
  - rewrite list_lookup_insert_eq in Hx by (rewrite length_app; cbn; lia).
    left. split; congruence.
  - rewrite list_lookup_insert_ne in Hx by congruence.
    apply lookup_app_Some in Hx as [Hx | [Hge Hx]].
    + right; left. split; [|exact Hx]. apply lookup_lt_Some in Hx. lia.
    + right; right. apply list_lookup_singleton_Some in Hx as [Hi <-].
      split; [lia|reflexivity].
Qed.

Lemma single_path_expanded subgoals h n a :
  single_path subgoals h ->
  h !! (length h - 1)%nat = Some n ->
  a ∈ subgoals ->
  single_path subgoals
    (<[(length h - 1)%nat := set_children n [length h]]>
       (h ++ [new_child (length h - 1) n a])).
Proof.
  intros Hp Hn Ha. pose proof (sp_root _ _ Hp) as Hpos.
  destruct (sp_node _ _ Hp _ _ Hn) as [Hpar Hcs Hd Hact Hvis].
  assert (Hlen : length (<[(length h - 1)%nat := set_children n [length h]]>
                           (h ++ [new_child (length h - 1) n a])) = S (length h)).
  { rewrite length_insert, length_app. cbn. lia. }
  split.
  - lia.
  - intros i x Hx. rewrite Hlen.
    apply (lookup_expanded _ _ _ _ _ Hpos Hn) in Hx
      as [[-> ->] | [[Hi Hx] | [-> ->]]].
    + split; cbn; try assumption.
      rewrite path_children_inner by lia. f_equal. lia.
    + destruct (sp_node _ _ Hp _ _ Hx) as [? Hcs' ? ? ?].
      split; try assumption.
      rewrite Hcs', !path_children_inner by lia. reflexivity.
    + split; cbn.
      * destruct (length h); [lia|]. cbn. f_equal. lia.
      * by rewrite path_children_last.
      * lia.
      * destruct (length h); [lia|]. cbn. eauto.
      * lia.
  - intros i x y Hx Hy.
    apply (lookup_expanded _ _ _ _ _ Hpos Hn) in Hx
      as [[-> ->] | [[Hi Hx] | [-> ->]]];
      apply (lookup_expanded _ _ _ _ _ Hpos Hn) in Hy
      as [[Hj ->] | [[Hj Hy] | [Hj ->]]]; cbn; try lia.
    + rewrite <- Hj in Hn. apply (sp_visits _ _ Hp _ _ _ Hx Hn).
    + apply (sp_visits _ _ Hp _ _ _ Hx Hy).
Qed.

Lemma root_visits_expanded h n a :
  (0 < length h)%nat ->
  h !! (length h - 1)%nat = Some n ->
  root_visits (<[(length h - 1)%nat := set_children n [length h]]>
                 (h ++ [new_child (length h - 1) n a]))
  = root_visits h.
Proof.
  intros Hpos Hn. unfold root_visits.
  destruct (decide (length h - 1 = 0)%nat) as [Hz|Hnz].
  - rewrite Hz in *. rewrite list_lookup_insert_eq by (rewrite length_app; cbn; lia).
    rewrite Hn. reflexivity.
  - rewrite list_lookup_insert_ne by exact Hnz.
    rewrite lookup_app_l by lia. reflexivity.
Qed.

Lemma root_visits_visited h v :
  root_visits (map (visited v) h) = Z.succ <$> root_visits h.
Proof.
  unfold root_visits. change (map (visited v) h) with (visited v <$> h).
  rewrite list_lookup_fmap. destruct (h !! 0%nat); reflexivity.
Qed.

(** One pass of the simulation loop on a path: the loop body returns, the
    tree is still a path, the root has one more visit, and the path grew
    by one node exactly when its last node was above the depth cap and
    there was an action to draw. *)
Lemma simulation_step_path self subgoals h (g : R) :
  single_path (map Str.np_str subgoals) h ->
  exists h' g',
    simulation_step self subgoals 0%nat (h, g) = Ok (h', g')
    /\ single_path (map Str.np_str subgoals) h'
    /\ root_visits h' = Z.succ <$> root_visits h
    /\ length h'
       = if bool_decide (Z.of_nat (length h) - 1 < max_depth self /\ subgoals <> [])
         then S (length h) else length h.
Proof.
  intros Hp. pose proof (sp_root _ _ Hp) as Hpos.
  destruct (lookup_lt_is_Some_2 h (length h - 1)%nat) as [n Hn]; [lia|].
  destruct (sp_node _ _ Hp _ _ Hn) as [Hpar Hcs Hd Hact Hvis].
  rewrite path_children_last in Hcs by lia.
  unfold simulation_step. cbn [fst snd].
  rewrite (select_path _ _ _ Hp). cbn [rbind].
  rewrite (deref_lookup _ _ _ Hn). cbn [rbind]. rewrite Hd.
  destruct (Z.ltb_spec (Z.of_nat (length h - 1)) (max_depth self)) as [Hlt|Hge].
  - destruct subgoals as [|a0 rest].
    + cbn [expand rbind fst snd].
      rewrite (backpropagate_path _ _ _ Hp). cbn [rbind].
      eexists _, _. split; [reflexivity|].
      split; [by apply single_path_visited|].
      split; [apply root_visits_visited|].
      rewrite length_map, bool_decide_eq_false_2; [reflexivity|]. intros [_ ?]. done.
    + destruct (expand_childless h g _ _ a0 rest Hn Hcs) as (a & Ha & ->).
      cbn [rbind fst snd].
      pose proof (single_path_expanded _ _ _ (Str.np_str a) Hp Hn
                    (np_str_in_map _ _
                       (proj2 (list_elem_of_lookup _ _) (ex_intro _ _ Ha)))) as Hp'.
      rewrite (backpropagate_last _ _ _ _ Hp')
        by (rewrite length_insert, length_app; cbn; lia).
      cbn [rbind]. eexists _, _. split; [reflexivity|].
      split; [by apply single_path_visited|].
      split; [by rewrite root_visits_visited, root_visits_expanded|].
      rewrite length_map, length_insert, length_app, bool_decide_eq_true_2;
        [cbn; lia|].
      split; [lia|done].
  - cbn [rbind fst snd].
    rewrite (backpropagate_path _ _ _ Hp). cbn [rbind].
    eexists _, _. split; [reflexivity|].
    split; [by apply single_path_visited|].
    split; [apply root_visits_visited|].
    rewrite length_map, bool_decide_eq_false_2; [reflexivity|]. lia.
Qed.

End PlannerLoop.
Section PlannerRun.
Import LLM MCTS TreeShape Planning.
Context {State F R : Type} `{FloatOps F} `{RandomGen F R}.
Implicit Types (h : list (MCTSNode State F)) (n m : MCTSNode State F).
Implicit Types (self : Planner F).

(** [k] passes of the simulation loop on a path. *)
Lemma simulation_loop_path self subgoals (k : nat) : forall h (g : R),
  single_path (map Str.np_str subgoals) h ->
  exists h' g',
    for_range k (simulation_step self subgoals 0%nat) (h, g) = Ok (h', g')
    /\ single_path (map Str.np_str subgoals) h'
    /\ root_visits h' = Z.add (Z.of_nat k) <$> root_visits h
    /\ (subgoals <> [] ->
        Z.of_nat (length h')
        = Z.max (Z.of_nat (length h))
                (Z.min (Z.of_nat (length h) + Z.of_nat k) (1 + max_depth self)))
    /\ (subgoals = [] -> length h' = length h).
Proof.
  induction k as [|k IH]; intros h g Hp.
  - exists h, g. cbn [for_range]. split; [reflexivity|]. split; [exact Hp|].
    split; [by destruct (root_visits h)|]. split; [lia|reflexivity].
  - destruct (simulation_step_path self subgoals h g Hp)
      as (h1 & g1 & Hstep & Hp1 & Hroot1 & Hlen1).
    destruct (IH h1 g1 Hp1) as (h' & g' & Hloop & Hp' & Hroot' & Hlen' & Hlen0').
    exists h', g'. cbn [for_range]. rewrite Hstep. cbn [rbind].
    split; [exact Hloop|]. split; [exact Hp'|].
    split; [|split].
    + rewrite Hroot', Hroot1. destruct (root_visits h); cbn; [f_equal; lia|reflexivity].
    + intros Hne. rewrite (Hlen' Hne), Hlen1.
      case_bool_decide as Hdec; [lia|].
      assert (max_depth self <= Z.of_nat (length h) - 1) by (destruct (decide (Z.of_nat (length h) - 1 < max_depth self)); [exfalso; apply Hdec; by split | lia]).
      lia.
    + intros ->. rewrite (Hlen0' eq_refl), Hlen1.
      rewrite bool_decide_eq_false_2; [reflexivity|]. intros [_ ?]. done.
Qed.

Lemma single_path_root subgoals (observation : State) :
  single_path subgoals
    [ {| state := observation; action := None; parent := None; children := [];
         visits := 0; value := of_int 0; depth := 0 |} ].
Proof.
  split.
  - cbn. lia.
  - intros [|i] n Hn; cbn in Hn; [|destruct i; discriminate].
    injection Hn as <-. split; cbn; try reflexivity; lia.
  - intros [|i] n m Hn Hm; cbn in Hm; [discriminate|destruct i; discriminate].
Qed.

(** The simulation loop of [_refine_plan_with_mcts] returns; the tree it
    leaves is a path whose root was visited once per simulation. *)
Lemma run_simulations_path self (g : R) (observation : State) subgoals :
  exists h g',
    run_simulations self g observation subgoals = Ok (h, g')
    /\ single_path (map Str.np_str subgoals) h
    /\ root_visits h = Some (Z.of_nat (Z.to_nat (mcts_simulations self)))
    /\ (subgoals <> [] ->
        Z.of_nat (length h)
        = Z.max 1 (Z.min (1 + Z.of_nat (Z.to_nat (mcts_simulations self)))
                         (1 + max_depth self))).
Proof.
  unfold run_simulations, MCTSNode_init. cbn [rbind].
  destruct (simulation_loop_path self subgoals (Z.to_nat (mcts_simulations self)) _ g
              (single_path_root (map Str.np_str subgoals) observation))
    as (h & g' & Hloop & Hp & Hroot & Hlen & _).
  exists h, g'. split; [exact Hloop|]. split; [exact Hp|].
  split.
  - rewrite Hroot. cbn. f_equal. lia.
  - intros Hne. rewrite (Hlen Hne). cbn [length]. lia.
Qed.

(** The extraction loop on a path collects the actions below the node it
    starts from. *)
Lemma extract_loop_path subgoals h :
  single_path subgoals h ->
  forall d i fuel best_plan,
    (i + S d = length h)%nat -> (d < fuel)%nat ->
    extract_loop fuel h i best_plan
    = Ok (best_plan ++ flat_map appended (drop (S i) h)).
Proof.
  intros Hp. induction d as [|d IH]; intros i fuel best_plan Hlen Hfuel;
    (destruct fuel as [|fuel]; [lia|]); cbn [extract_loop];
    (destruct (h !! i) as [n|] eqn:Hn;
     [|apply lookup_ge_None in Hn; lia]);
    rewrite (deref_lookup _ _ _ Hn); cbn [rbind];
    rewrite (pn_children _ _ _ _ (sp_node _ _ Hp _ _ Hn)).
  - rewrite path_children_last by lia.
    rewrite drop_ge by lia. cbn. by rewrite app_nil_r.
  - rewrite path_children_inner by lia. cbn [py_max].
    destruct (h !! S i) as [m|] eqn:Hm; [|apply lookup_ge_None in Hm; lia].
    rewrite (deref_lookup _ _ _ Hm). cbn [rbind max_loop].
    rewrite (deref_lookup _ _ _ Hm). cbn [rbind].
    rewrite (IH (S i)) by lia.
    rewrite (drop_S _ _ _ Hm). cbn [flat_map]. rewrite app_assoc.
    unfold appended. destruct (action m) as [a|]; [destruct (Str.truthy a)|];
      by rewrite ?app_nil_r.
Qed.

Lemma appended_in_subgoals subgoals h :
  single_path subgoals h ->
  forall a, a ∈ flat_map appended (drop 1 h) -> a ∈ subgoals.
Proof.
  intros Hp a Ha. apply list_elem_of_In, in_flat_map in Ha as (n & Hn & Ha).
  apply list_elem_of_In in Hn, Ha.
  apply list_elem_of_lookup in Hn as (i & Hn). rewrite lookup_drop in Hn.
  pose proof (pn_action _ _ _ _ (sp_node _ _ Hp _ _ Hn)) as (s & Hs & Hin).
  unfold appended in Ha. rewrite Hs in Ha.
  destruct (Str.truthy s); [|by apply elem_of_nil in Ha].
  apply list_elem_of_singleton in Ha as ->. exact Hin.
Qed.

Lemma length_appended subgoals h :
  single_path subgoals h ->
  Forall (fun s => Str.truthy s = true) subgoals ->
  length (flat_map appended (drop 1 h)) = (length h - 1)%nat.
Proof.
  intros Hp Htruthy.
  assert (Hall : Forall (fun n => exists a, appended n = [a]) (drop 1 h)).
  { apply Forall_lookup. intros i n Hn. rewrite lookup_drop in Hn.
    pose proof (pn_action _ _ _ _ (sp_node _ _ Hp _ _ Hn)) as (s & Hs & Hin).
    exists s. unfold appended. rewrite Hs.
    rewrite Forall_forall in Htruthy. by rewrite (Htruthy _ Hin). }
  rewrite <- (length_drop h 1).
  induction Hall as [|n l (a & Ha) _ IH]; [reflexivity|].
  cbn [flat_map]. rewrite Ha. cbn. by rewrite IH.
Qed.

(** [_refine_plan_with_mcts] returns; its plan is the list of the actions
    on the path, or the subgoal list itself when the path has none. *)
Lemma refine_plan_returns self (g : R) (observation : State) s0 rest :
  exists h g',
    run_simulations self g observation (s0 :: rest) = Ok (h, g')
    /\ single_path (map Str.np_str (s0 :: rest)) h
    /\ _refine_plan_with_mcts self g observation (s0 :: rest)
       = Ok (match flat_map appended (drop 1 h) with
             | [] => s0 :: rest
             | a :: l => a :: l
             end, g').
Proof.
  destruct (run_simulations_path self g observation (s0 :: rest))
    as (h & g' & Hrun & Hp & _ & _).
  exists h, g'. split; [exact Hrun|]. split; [exact Hp|].
  unfold _refine_plan_with_mcts. rewrite Hrun. cbn [rbind fst snd].
  pose proof (sp_root _ _ Hp).
  rewrite (extract_loop_path _ _ Hp (length h - 1)%nat) by lia.
  cbn [rbind app]. by destruct (flat_map appended (drop 1 h)).
Qed.

Lemma refine_plan_nonempty self (g : R) (observation : State) subgoals :
  subgoals <> [] ->
  exists pl g',
    _refine_plan_with_mcts self g observation subgoals = Ok (pl, g')
    /\ pl <> []
    /\ (forall a, a ∈ pl ->
        exists s, s ∈ subgoals /\ (a = s \/ a = Str.np_str s)).
Proof.
  destruct subgoals as [|s0 rest]; [done|]. intros _.
  destruct (refine_plan_returns self g observation s0 rest)
    as (h & g' & _ & Hp & ->).
  eexists _, _. split; [reflexivity|].
  pose proof (appended_in_subgoals _ _ Hp) as Hin.
  destruct (flat_map appended (drop 1 h)) as [|a l].
  - split; [done|]. intros a Ha. exists a. split; [exact Ha | by left].
  - split; [done|]. intros b Hb.
    destruct (in_map_np_str _ _ (Hin _ Hb)) as (s & Hs & ->).
    exists s. split; [exact Hs | by right].
Qed.

End PlannerRun.

(** ** The planner *)
Section PlannerFacts.
Import LLM MCTS TreeShape Planning.
Context {State F R : Type} `{FloatOps F} `{RandomGen F R}.
Implicit Types (h : list (MCTSNode State F)) (n m : MCTSNode State F).
Implicit Types (self : Planner F) (env : Env State) (g : R).

Lemma generate_subgoals_planner_returns env self observation goal :
  exists subgoals, _generate_subgoals env self observation goal = Ok subgoals.
Proof.
  unfold _generate_subgoals.
  destruct (llm self) as [gen|]; [|eauto].
  destruct (subgoal_enabled self); [|eauto].
  destruct (generate_subgoals_returns env gen goal (Some observation)) as [l ->].
  cbn [rbind try_except]. eauto.
Qed.

Lemma generate_subgoals_no_generator env self observation goal :
  llm self = None \/ subgoal_enabled self = false ->
  _generate_subgoals env self observation goal = Ok (_generate_basic_subgoals goal).
Proof.
  unfold _generate_subgoals. intros [-> | ->]; [reflexivity|].
  by destruct (llm self).
Qed.

Lemma generate_subgoals_disabled_generator env self gen observation goal :
  llm self = Some gen -> subgoal_enabled self = true ->
  LLM.enabled gen = false \/ llm_client gen = None ->
  _generate_subgoals env self observation goal
  = Ok (slice_to (_generate_fallback_subgoals goal) (max_subgoals self)).
Proof.
  intros Hllm Hsg Hoff. unfold _generate_subgoals. rewrite Hllm, Hsg.
  by rewrite (generate_subgoals_disabled _ _ _ _ Hoff).
Qed.

Lemma plan_enabled env self g observation goal subgoals :
  enabled self = true ->
  _generate_subgoals env self observation goal = Ok subgoals ->
  plan env self g observation goal
  = match subgoals with
    | [] => Ok ([], g)
    | _ :: _ => _refine_plan_with_mcts self g observation subgoals
    end.
Proof.
  intros Hen Hsg. unfold plan. rewrite Hen, Hsg. cbn [negb rbind].
  by destruct subgoals.
Qed.

(** [plan] returns in every environment. *)
Lemma plan_returns env self g observation goal :
  exists pl g', plan env self g observation goal = Ok (pl, g').
Proof.
  destruct (enabled self) eqn:Hen.
  - destruct (generate_subgoals_planner_returns env self observation goal)
      as [subgoals Hsg].
    rewrite (plan_enabled _ _ _ _ _ _ Hen Hsg).
    destruct subgoals as [|s0 rest]; [eauto|].
    destruct (refine_plan_nonempty self g observation (s0 :: rest))
      as (pl & g' & -> & _); [done|eauto].
  - unfold plan. rewrite Hen. cbn. eauto.
Qed.

Lemma plan_nonempty env self g observation goal subgoals :
  enabled self = true ->
  _generate_subgoals env self observation goal = Ok subgoals ->
  subgoals <> [] ->
  exists pl g',
    plan env self g observation goal = Ok (pl, g')
    /\ pl <> []
    /\ (forall a, a ∈ pl ->
        exists s, s ∈ subgoals /\ (a = s \/ a = Str.np_str s)).
Proof.
  intros Hen Hsg Hne. rewrite (plan_enabled _ _ _ _ _ _ Hen Hsg).
  destruct subgoals as [|s0 rest]; [done|].
  by apply refine_plan_nonempty.
Qed.

(** With at least one simulation and a positive depth cap, on non-empty
    subgoal strings, the plan has as many actions as the path has nodes
    below the root. *)
Lemma refine_plan_length self g (observation : State) subgoals :
  subgoals <> [] ->
  Forall (fun s => Str.truthy (Str.np_str s) = true) subgoals ->
  1 <= mcts_simulations self -> 1 <= max_depth self ->
  exists pl g',
    _refine_plan_with_mcts self g observation subgoals = Ok (pl, g')
    /\ Z.of_nat (length pl) = Z.min (mcts_simulations self) (max_depth self)
    /\ (forall a, a ∈ pl -> a ∈ map Str.np_str subgoals).
Proof.
  intros Hne Htruthy Hsim Hdepth.
  destruct subgoals as [|s0 rest]; [done|].
  destruct (refine_plan_returns self g observation s0 rest)
    as (h & g' & Hrun & Hp & ->).
  destruct (run_simulations_path self g observation (s0 :: rest))
    as (h2 & g2 & Hrun2 & _ & _ & Hlen).
  rewrite Hrun in Hrun2. injection Hrun2 as <- <-.
  specialize (Hlen Hne).
  pose proof (length_appended _ _ Hp (proj2 (List.Forall_map _ _ _) Htruthy)) as Hpl.
  pose proof (appended_in_subgoals _ _ Hp) as Hin.
  eexists _, _. split; [reflexivity|].
  destruct (flat_map appended (drop 1 h)) as [|a l]; [cbn in Hpl; lia|].
  split; [rewrite Hpl; lia | exact Hin].
Qed.

(** Without simulations the plan is the subgoal list itself. *)
Lemma refine_plan_no_simulation self g (observation : State) subgoals :
  mcts_simulations self <= 0 ->
  _refine_plan_with_mcts self g observation subgoals = Ok (subgoals, g).
Proof.
  intros Hsim. unfold _refine_plan_with_mcts, run_simulations.
  destruct subgoals as [|s0 rest]; [reflexivity|].
  replace (Z.to_nat (mcts_simulations self)) with 0%nat by lia.
  reflexivity.
Qed.

End PlannerFacts.

(** ** Claims on the search and the planner *)
Section SearchClaims.
Import LLM MCTS TreeShape Planning.
Context {State F R : Type} `{FloatOps F} `{RandomGen F R}.
Implicit Types (h : list (MCTSNode State F)) (n m : MCTSNode State F).
Implicit Types (self : Planner F) (env : Env State) (g : R).

(** C1: the code at the failing input.  The root of [one_child_tree] has
    one child and is not fully expanded for the two candidate actions
    "find trees" and "chop wood"; [select] tests against the empty list
    and descends to the child instead of returning the root. *)
Theorem select_descends_past_unexpanded_root (st : State) (v C : F) :
  exists root,
    SamplePlanner.one_child_tree st v !! 0%nat = Some root
    /\ is_fully_expanded root ["find trees"; "chop wood"] = false
    /\ is_fully_expanded root [] = true
    /\ select (SamplePlanner.one_child_tree st v) C 0%nat = Ok 1%nat.
Proof. eexists. split; [reflexivity|]. repeat split. Qed.

(** C8: after the [N = mcts_simulations] passes of the simulation loop
    the root has exactly [N] visits; [backpropagate] from a node of the
    path adds one visit to the node and to each of its ancestors, the root
    included, and touches no other node. *)
Theorem root_visits_after_simulations self g (observation : State) subgoals :
  0 <= mcts_simulations self ->
  (exists h g' root,
      run_simulations self g observation subgoals = Ok (h, g')
      /\ h !! 0%nat = Some root
      /\ parent root = None
      /\ visits root = mcts_simulations self)
  /\ (forall h node v,
         single_path subgoals h -> (node < length h)%nat ->
         backpropagate h node v
         = Ok (map (visited v) (take (S node) h) ++ drop (S node) h)).
Proof.
  intros Hsim. split.
  - destruct (run_simulations_path self g observation subgoals)
      as (h & g' & Hrun & Hp & Hroot & _).
    unfold root_visits in Hroot.
    destruct (h !! 0%nat) as [root|] eqn:Hr; [|discriminate].
    exists h, g', root. split; [exact Hrun|]. split; [exact Hr|].
    split; [apply (pn_parent _ _ _ _ (sp_node _ _ Hp _ _ Hr))|].
    cbn in Hroot. injection Hroot as ->. lia.
  - intros h node v Hp Hnode. unfold backpropagate.
    apply backpropagate_loop_path; [|exact Hnode|exact Hnode].
    intros j n Hn. apply (pn_parent _ _ _ _ (sp_node _ _ Hp _ _ Hn)).
Qed.

(** C3 (as amended): [Planner.__init__] validates nothing.  For every
    configuration it returns a planner holding the configured values, or
    the defaults 100, 10, 1.0 and 5 for absent keys, whatever their sign;
    a planner with no simulation to run then returns, at call time, the
    unrefined subgoal list as its plan. *)
Theorem planner_init_accepts_every_config env (config : Config F) :
  exists self,
    Planner_init env config = Ok self
    /\ mcts_simulations self = get_default (cfg_mcts_simulations config) 100
    /\ max_depth self = get_default (cfg_max_depth config) 10
    /\ exploration_constant self
       = get_default (cfg_exploration_constant config) (of_int 1)
    /\ max_subgoals self
       = get_default (cfg_max_subgoals
                        (get_default (cfg_subgoal_generation config)
                                     empty_subgoal_generation)) 5
    /\ forall g (observation : State) goal,
        enabled self = true -> mcts_simulations self <= 0 ->
        exists subgoals,
          _generate_subgoals env self observation goal = Ok subgoals
          /\ plan env self g observation goal = Ok (subgoals, g).
Proof.
  assert (Hcall : forall self : Planner F,
             forall g (observation : State) goal,
               enabled self = true -> mcts_simulations self <= 0 ->
               exists subgoals,
                 _generate_subgoals env self observation goal = Ok subgoals
                 /\ plan env self g observation goal = Ok (subgoals, g)).
  { intros self g observation goal Hen Hsim.
    destruct (generate_subgoals_planner_returns env self observation goal)
      as [subgoals Hsg].
    exists subgoals. split; [exact Hsg|].
    rewrite (plan_enabled _ _ _ _ _ _ Hen Hsg).
    destruct subgoals as [|s0 rest]; [reflexivity|].
    by apply refine_plan_no_simulation. }
  unfold Planner_init.
  destruct (get_default (cfg_sg_enabled _) true).
  - destruct (subgoal_generator_importable env); cbn [rbind try_except_ImportError].
    + unfold SubGoalGenerator_init.
      destruct (get_default (cfg_llm_enabled _) true);
        [destruct (llama_client_importable env)|];
        cbn [rbind try_except_ImportError];
        eexists; (split; [reflexivity|]); repeat split; apply Hcall.
    + eexists; (split; [reflexivity|]); repeat split; apply Hcall.
  - cbn [rbind]. eexists; (split; [reflexivity|]); repeat split; apply Hcall.
Qed.

Lemma zombie_subgoals env self (observation : State) :
  SamplePlanner.oracle_disabled self -> 3 <= max_subgoals self ->
  exists subgoals,
    _generate_subgoals env self observation "defeat zombie" = Ok subgoals
    /\ subgoals <> []
    /\ Forall (fun s => Str.truthy s = true) subgoals
    /\ Forall (fun s => Str.np_str s = s) subgoals
    /\ (forall a, a ∈ subgoals ->
          a ∈ ["find weapon"; "approach enemy"; "attack"; "retreat if needed"])
    /\ (llm self = None \/ subgoal_enabled self = false ->
        subgoals = ["find weapon"; "approach enemy"; "attack"]).
Proof.
  intros Hoff Hmax.
  assert (Hbasic : llm self = None \/ subgoal_enabled self = false ->
            exists subgoals,
              _generate_subgoals env self observation "defeat zombie" = Ok subgoals
              /\ subgoals <> []
              /\ Forall (fun s => Str.truthy s = true) subgoals
              /\ Forall (fun s => Str.np_str s = s) subgoals
              /\ (forall a, a ∈ subgoals ->
                    a ∈ ["find weapon"; "approach enemy"; "attack"; "retreat if needed"])
              /\ (llm self = None \/ subgoal_enabled self = false ->
                  subgoals = ["find weapon"; "approach enemy"; "attack"])).
  { intros Hno. rewrite (generate_subgoals_no_generator _ _ _ _ Hno).
    eexists. split; [reflexivity|].
    change (_generate_basic_subgoals "defeat zombie")
      with ["find weapon"; "approach enemy"; "attack"].
    split; [done|]. split; [by repeat constructor|].
    split; [by repeat constructor|].
    split; [|done]. intros a Ha.
    apply list_elem_of_In. apply list_elem_of_In in Ha. cbn in *. tauto. }
  destruct Hoff as [Hno | [Hno | (gen & Hllm & Hgen)]]; [by auto..|].
  destruct (subgoal_enabled self) eqn:Hsg; [|by auto].
  rewrite (generate_subgoals_disabled_generator _ _ _ _ _ Hllm Hsg Hgen).
  eexists. split; [reflexivity|].
  change (_generate_fallback_subgoals "defeat zombie")
    with ["find weapon"; "approach enemy"; "attack"; "retreat if needed"].
  unfold slice_to. destruct (Z.leb_spec 0 (max_subgoals self)); [|lia].
  destruct (Z.to_nat (max_subgoals self)) as [|[|[|k]]] eqn:Hk; [lia..|].
  split; [done|]. split; [apply Forall_take; by repeat constructor|]. split.
  - apply Forall_take. by repeat constructor.
  - split; [|intros [Hl | Hl]; congruence].
    intros a Ha. apply elem_of_take in Ha as (i & Ha & _).
    by apply list_elem_of_lookup_2 in Ha.
Qed.

(** C4 (as amended): with the oracle disabled, 50 simulations, depth cap
    3 and any exploration constant, [plan(observation, "defeat zombie")]
    returns a list of exactly three subgoals, each one of "find weapon",
    "approach enemy", "attack" and "retreat if needed"; "retreat if
    needed" is not drawn when the planner holds no generator or subgoal
    generation is off.  Three is at most [max_subgoals] when that is 3 or
    more. *)
Theorem plan_defeat_zombie env self g (observation : State) :
  enabled self = true ->
  mcts_simulations self = 50 ->
  max_depth self = 3 ->
  SamplePlanner.oracle_disabled self ->
  3 <= max_subgoals self ->
  exists pl g',
    plan env self g observation "defeat zombie" = Ok (pl, g')
    /\ pl <> []
    /\ length pl = 3%nat
    /\ Z.of_nat (length pl) <= max_subgoals self
    /\ (forall a, a ∈ pl ->
          a ∈ ["find weapon"; "approach enemy"; "attack"; "retreat if needed"])
    /\ (llm self = None \/ subgoal_enabled self = false ->
        forall a, a ∈ pl -> a ∈ ["find weapon"; "approach enemy"; "attack"]).
Proof.
  intros Hen Hsim Hdepth Hoff Hmax.
  destruct (zombie_subgoals env self observation Hoff Hmax)
    as (subgoals & Hsg & Hne & Htruthy & Hfixed & Hin & Hbasic).
  rewrite (plan_enabled _ _ _ _ _ _ Hen Hsg).
  assert (Htruthy' : Forall (fun s => Str.truthy (Str.np_str s) = true) subgoals).
  { apply Forall_forall. intros s Hs. rewrite Forall_forall in Htruthy, Hfixed.
    rewrite (Hfixed _ Hs). by apply Htruthy. }
  destruct (refine_plan_length self g observation subgoals Hne Htruthy')
    as (pl & g' & Hplan & Hlen & Hpl); [lia..|].
  rewrite (map_np_str_fixed _ Hfixed) in Hpl.
  rewrite Hsim, Hdepth in Hlen.
  exists pl, g'. split; [by destruct subgoals|].
  assert (length pl = 3%nat) as Hl3 by lia.
  split; [by destruct pl|]. split; [exact Hl3|]. split; [lia|].
  split; [by auto|].
  intros Hno a Ha. rewrite <- (Hbasic Hno). by apply Hpl.
Qed.

(** C5 (as amended): on a negative reward [update_plan] returns exactly
    the result of [plan(current_state, "recover from failure")], which is
    non-empty whenever the planner is enabled and the subgoal list it
    obtains for that goal (the oracle's list cut to [max_subgoals]) is
    non-empty; on a reward of zero or more it returns [None] and leaves
    the generator untouched.  [plan] returns in every case. *)
Theorem update_plan_replans_on_negative_reward
    env self g (current_state : State) executed_action (reward : Q) :
  ((reward < 0)%Q ->
   update_plan env self g current_state executed_action reward
   = (pg <- plan env self g current_state "recover from failure" ;;
      Ok (Some (fst pg), snd pg)))
  /\ ((0 <= reward)%Q ->
      update_plan env self g current_state executed_action reward = Ok (None, g))
  /\ (exists pl g',
         plan env self g current_state "recover from failure" = Ok (pl, g'))
  /\ (forall subgoals,
         enabled self = true ->
         _generate_subgoals env self current_state "recover from failure"
         = Ok subgoals ->
         subgoals <> [] ->
         exists pl g',
           plan env self g current_state "recover from failure" = Ok (pl, g')
           /\ pl <> []).
Proof.
  unfold update_plan. split; [|split; [|split]].
  - intros Hneg. destruct (Qlt_le_dec reward 0) as [_|Hge]; [reflexivity|].
    exfalso. exact (Qlt_not_le _ _ Hneg Hge).
  - intros Hge. destruct (Qlt_le_dec reward 0) as [Hneg|_]; [|reflexivity].
    exfalso. exact (Qlt_not_le _ _ Hneg Hge).
  - apply plan_returns.
  - intros subgoals Hen Hsg Hne.
    destruct (plan_nonempty env self g current_state _ _ Hen Hsg Hne)
      as (pl & g' & Hplan & Hpl & _).
    eauto.
Qed.

End SearchClaims.

(** ** Closed statements on the sample world *)
Import Sample.

(** C2: in the tree [_refine_plan_with_mcts] builds every node has at most
    one child and the tree is the single path from the root, because
    [select] only ever returns a node without children.  [expand] on such a
    node draws from the whole subgoal list, whatever was drawn above it:
    the position drawn is the generator's draw over all the subgoals, the
    law of [np.random.choice] gives every position of the whole list the
    same probability [1 / len(subgoals)], and the action of the new node is
    the NumPy string of the subgoal drawn, which is that subgoal without
    its trailing NUL characters.  So every action on the path is the NumPy
    string of one of the subgoals, one of the subgoals themselves when none
    ends in NUL, and the extracted plan may repeat a subgoal (as it does
    for the generator that always draws the first one, also on a subgoal
    that ends in NUL). *)
Theorem refine_tree_is_single_path :
  (forall (State F R : Type) (Hf : FloatOps F) (Hr : RandomGen F R)
          (self : Planning.Planner F) (g : R) (observation : State) subgoals,
      exists h g',
        Planning.run_simulations self g observation subgoals = Ok (h, g')
        /\ TreeShape.single_path (map Str.np_str subgoals) h
        /\ forall i n, h !! i = Some n ->
             (length (MCTS.children n) <= 1)%nat
             /\ MCTS.parent n = TreeShape.path_parent i
             /\ MCTS.children n = TreeShape.path_children (length h) i
             /\ (forall a, MCTS.action n = Some a ->
                   exists s, s ∈ subgoals /\ a = Str.np_str s)
             /\ (Forall (fun s => Str.np_str s = s) subgoals ->
                 forall a, MCTS.action n = Some a -> a ∈ subgoals))
  /\ (forall (State F : Type) (Hf : FloatOps F) fuel
             (h : list (MCTS.MCTSNode State F)) (C : F) node r,
         MCTS.select_loop fuel h C node = Ok r ->
         exists n, h !! r = Some n /\ MCTS.children n = [])
  /\ (forall (State F R : Type) (Hf : FloatOps F) (Hr : RandomGen F R)
             (h : list (MCTS.MCTSNode State F)) (g : R) node n a0 rest,
         h !! node = Some n -> MCTS.children n = [] ->
         (exists a,
             (a0 :: rest)
               !! (fst (rand_index g (length (a0 :: rest))) mod length (a0 :: rest))%nat
             = Some a
             /\ MCTS.expand h g node (a0 :: rest)
                = Ok (length h,
                      <[node := MCTS.set_children n [length h]]>
                        (h ++ [TreeShape.new_child node n (Str.np_str a)]),
                      snd (rand_index g (length (a0 :: rest)))))
         /\ MCTS.expand_law h node (a0 :: rest)
            = Ok (map (fun s => (Some (Str.np_str s),
                                 1 # Pos.of_nat (length (a0 :: rest))))
                      (a0 :: rest))
         /\ (MCTS.total_weight (MCTS.choice_law (a0 :: rest)) == 1)%Q)
  /\ Planning._refine_plan_with_mcts SamplePlanner.zombie_planner ([] : list nat) tt
       ["find weapon"; "approach enemy"; "attack"]
     = Ok (["find weapon"; "find weapon"; "find weapon"], [])
  /\ Planning._refine_plan_with_mcts SamplePlanner.zombie_planner ([] : list nat) tt
       [SamplePlanner.find_nul; "attack"]
     = Ok (["find"; "find"; "find"], []).
Proof.
  split; [|split; [|split; [|split]]].
  - intros State F R Hf Hr self g observation subgoals.
    destruct (run_simulations_path self g observation subgoals)
      as (h & g' & Hrun & Hp & _).
    exists h, g'. split; [exact Hrun|]. split; [exact Hp|].
    intros i n Hn.
    destruct (TreeShape.sp_node _ _ Hp _ _ Hn) as [Hpar Hcs _ Hact _].
    assert (Hstored : forall a, MCTS.action n = Some a ->
                        a ∈ map Str.np_str subgoals).
    { intros a Ha. rewrite Ha in Hact. destruct i as [|i]; [discriminate|].
      destruct Hact as (s & [= ->] & Hin). exact Hin. }
    split; [|split; [exact Hpar|split; [exact Hcs|split]]].
    + rewrite Hcs. unfold TreeShape.path_children. case_decide; cbn; lia.
    + intros a Ha. apply in_map_np_str, Hstored, Ha.
    + intros Hfixed a Ha. rewrite <- (map_np_str_fixed _ Hfixed).
      apply Hstored, Ha.
  - intros State F Hf fuel. apply select_loop_childless.
  - intros State F R Hf Hr h g node n a0 rest Hn Hcs.
    split; [by apply expand_childless|].
    split; [by apply (expand_law_childless _ _ n) | by apply choice_law_total].
  - vm_compute. reflexivity.
  - vm_compute. reflexivity.
Qed.

Lemma refine_tree_is_single_path_witness :
  MCTS.select_loop 2 (SamplePlanner.one_child_tree tt (of_int 0)) (of_int 1) 0%nat
  = Ok 1%nat
  /\ exists n,
       SamplePlanner.one_child_tree tt (of_int 0) !! 1%nat = Some n
       /\ MCTS.children n = [].
Proof.
  assert (Hsel : MCTS.select_loop 2 (SamplePlanner.one_child_tree tt (of_int 0))
                   (of_int 1) 0%nat = Ok 1%nat) by reflexivity.
  split; [exact Hsel|].
  exact (proj1 (proj2 refine_tree_is_single_path) unit (option Q) Sample.QFloat
           2%nat (SamplePlanner.one_child_tree tt (of_int 0)) (of_int 1) 0%nat 1%nat
           Hsel).
Defined.

(** The tree of C1 is the one the simulation loop leaves after its first
    pass over the candidate actions "find trees" and "chop wood". *)
Lemma one_child_tree_is_built :
  Planning.run_simulations SamplePlanner.one_simulation_planner [0%nat] tt
    ["find trees"; "chop wood"]
  = Ok (SamplePlanner.one_child_tree tt (of_int 0), []).
Proof. reflexivity. Qed.

(** The sample planners are what [Planner.__init__] builds from the sample
    configurations. *)
Lemma planner_init_samples :
  Planning.Planner_init Sample.offline SamplePlanner.zombie_config
  = Ok SamplePlanner.zombie_planner
  /\ Planning.Planner_init Sample.offline SamplePlanner.invalid_config
     = Ok SamplePlanner.invalid_planner
  /\ Planning.Planner_init (Sample.answering 200 "") SamplePlanner.default_config
     = Ok SamplePlanner.default_planner.
Proof. repeat split. Qed.

Lemma root_visits_after_simulations_witness :
  0 <= Planning.mcts_simulations SamplePlanner.zombie_planner
  /\ exists h g' root,
       Planning.run_simulations SamplePlanner.zombie_planner ([] : list nat) tt
         ["find weapon"; "approach enemy"; "attack"] = Ok (h, g')
       /\ h !! 0%nat = Some root
       /\ MCTS.parent root = None
       /\ MCTS.visits root = Planning.mcts_simulations SamplePlanner.zombie_planner.
Proof.
  assert (Hsim : 0 <= Planning.mcts_simulations SamplePlanner.zombie_planner)
    by (cbn; lia).
  split; [exact Hsim|].
  exact (proj1 (root_visits_after_simulations SamplePlanner.zombie_planner [] tt
                  ["find weapon"; "approach enemy"; "attack"] Hsim)).
Defined.

(** C3, as the specification words it, fails: a configuration with
    [mcts_simulations = 0] and [max_subgoals = 0] is accepted at
    construction. *)
Lemma planner_init_accepts_invalid_config :
  exists self,
    Planning.Planner_init Sample.offline SamplePlanner.invalid_config = Ok self
    /\ Planning.mcts_simulations self = 0
    /\ Planning.max_subgoals self = 0.
Proof. eexists. split; [reflexivity|]. split; reflexivity. Qed.

Lemma planner_init_accepts_every_config_witness :
  exists self subgoals,
    Planning.Planner_init Sample.offline SamplePlanner.invalid_config = Ok self
    /\ Planning.plan Sample.offline self ([] : list nat) tt "defeat zombie"
       = Ok (subgoals, []).
Proof.
  destruct (planner_init_accepts_every_config (R := list nat) Sample.offline
              SamplePlanner.invalid_config)
    as (self & Hinit & Hsim & _ & _ & _ & Hcall).
  assert (Hself : self = SamplePlanner.invalid_planner).
  { rewrite (proj1 (proj2 planner_init_samples)) in Hinit. congruence. }
  destruct (Hcall [] tt "defeat zombie") as (subgoals & _ & Hplan).
  - rewrite Hself. reflexivity.
  - rewrite Hself. cbn. lia.
  - exists self, subgoals. split; [exact Hinit | exact Hplan].
Defined.

(** C4, as the specification words it, fails: with the oracle disabled by
    ['llm': {'enabled': False}] the candidate list is the four-entry
    fallback list, and a generator that first draws its fourth entry yields
    a plan holding "retreat if needed". *)
Lemma plan_defeat_zombie_draws_retreat :
  Planning.plan Sample.offline SamplePlanner.zombie_planner [3; 1; 2]%nat tt
    "defeat zombie"
  = Ok (["retreat if needed"; "approach enemy"; "attack"], [])
  /\ "retreat if needed" ∉ ["find weapon"; "approach enemy"; "attack"].
Proof.
  split; [vm_compute; reflexivity|].
  intros Hin. apply list_elem_of_In in Hin. cbn in Hin.
  repeat destruct Hin as [Hin|Hin]; try discriminate; exact Hin.
Qed.

Lemma plan_defeat_zombie_witness :
  (Planning.enabled SamplePlanner.zombie_planner = true
   /\ Planning.mcts_simulations SamplePlanner.zombie_planner = 50
   /\ Planning.max_depth SamplePlanner.zombie_planner = 3
   /\ SamplePlanner.oracle_disabled SamplePlanner.zombie_planner
   /\ 3 <= Planning.max_subgoals SamplePlanner.zombie_planner)
  /\ exists pl g',
       Planning.plan Sample.offline SamplePlanner.zombie_planner [3; 1; 2]%nat tt
         "defeat zombie" = Ok (pl, g')
       /\ length pl = 3%nat.
Proof.
  assert (Hoff : SamplePlanner.oracle_disabled SamplePlanner.zombie_planner).
  { right; right. exists SampleLLM.disabled_generator. split; [reflexivity|].
    left; reflexivity. }
  assert (Hmax : 3 <= Planning.max_subgoals SamplePlanner.zombie_planner)
    by (cbn; lia).
  split; [repeat split; [exact Hoff | exact Hmax]|].
  destruct (plan_defeat_zombie Sample.offline SamplePlanner.zombie_planner
              [3; 1; 2]%nat tt eq_refl eq_refl eq_refl Hoff Hmax)
    as (pl & g' & Hplan & _ & Hlen & _).
  exists pl, g'. split; [exact Hplan | exact Hlen].
Defined.

(** C5, as the specification words it, fails: the planner is enabled and the oracle's
    fallback list for "recover from failure" is non-empty, yet the plan
    returned on a negative reward is empty, once because [max_subgoals = 0]
    cuts the fallback list to nothing, once (under the default
    configuration) because the backend answers with an empty text, which
    parses to no subgoal and is not replaced by the fallback list. *)
Lemma update_plan_returns_empty_plan :
  LLM._generate_fallback_subgoals "recover from failure"
  = ["explore environment"; "gather resources"; "avoid danger"; "complete objective"]
  /\ Planning.enabled SamplePlanner.invalid_planner = true
  /\ Planning.update_plan Sample.offline SamplePlanner.invalid_planner
       ([] : list nat) tt "attack" (-1)%Q
     = Ok (Some [], [])
  /\ Planning.enabled SamplePlanner.default_planner = true
  /\ Planning.update_plan (Sample.answering 200 "") SamplePlanner.default_planner
       ([] : list nat) tt "attack" (-1)%Q
     = Ok (Some [], []).
Proof. repeat split. Qed.

Lemma update_plan_replans_on_negative_reward_witness :
  (-1 < 0)%Q
  /\ Planning.update_plan Sample.offline SamplePlanner.zombie_planner
       ([] : list nat) tt "attack" (-1)%Q
     = (pg <- Planning.plan Sample.offline SamplePlanner.zombie_planner
                ([] : list nat) tt "recover from failure" ;;
        Ok (Some (fst pg), snd pg)).
Proof.
  assert (Hneg : (-1 < 0)%Q) by reflexivity.
  split; [exact Hneg|].
  exact (proj1 (update_plan_replans_on_negative_reward Sample.offline
                  SamplePlanner.zombie_planner [] tt "attack" (-1)%Q) Hneg).
Defined.

(** * Further properties of the modelled code *)

(** ** Parsing and the oracle *)
Section ParseMore.
Import LLM.
Context {State : Type}.

Lemma rstrip_cons_nonspace c s :
  Str.is_space c = false -> Str.rstrip (String c s) = String c (Str.rstrip s).
Proof. intros Hc. cbn [Str.rstrip]. rewrite Hc. by destruct (Str.rstrip s). Qed.

Lemma rstrip_cons c s :
  Str.rstrip (String c s)
  = match Str.rstrip s with
    | EmptyString => if Str.is_space c then EmptyString else String c EmptyString
    | String c' r => String c (String c' r)
    end.
Proof. reflexivity. Qed.

Lemma rstrip_idempotent s : Str.rstrip (Str.rstrip s) = Str.rstrip s.
Proof.
  induction s as [|c s IH]; [reflexivity|].
  rewrite rstrip_cons. destruct (Str.rstrip s) as [|c' r] eqn:Hr.
  - destruct (Str.is_space c) eqn:Hc; [reflexivity|].
    rewrite rstrip_cons. cbn [Str.rstrip]. by rewrite Hc.
  - rewrite rstrip_cons, IH. reflexivity.
Qed.

Lemma lstrip_head s :
  match Str.lstrip s with
  | EmptyString => True
  | String c _ => Str.is_space c = false
  end.
Proof.
  induction s as [|c s IH]; [exact I|].
  cbn [Str.lstrip]. destruct (Str.is_space c) eqn:Hc; [exact IH|exact Hc].
Qed.

(** [strip] leaves a stripped string unchanged. *)
Lemma strip_idempotent s : Str.strip (Str.strip s) = Str.strip s.
Proof.
  unfold Str.strip. pose proof (lstrip_head s) as Hhead.
  destruct (Str.lstrip s) as [|c t]; [reflexivity|].
  rewrite (rstrip_cons_nonspace _ _ Hhead). cbn [Str.lstrip]. rewrite Hhead.
  rewrite (rstrip_cons_nonspace _ _ Hhead). by rewrite rstrip_idempotent.
Qed.

(** A subgoal as the oracle returns it: at least four characters, no
    whitespace around it. *)
Lemma parse_line_entries line acc acc' :
  parse_line line acc = Ok acc' ->
  Forall (fun s => (4 <= String.length s)%nat /\ Str.strip s = s) acc ->
  Forall (fun s => (4 <= String.length s)%nat /\ Str.strip s = s) acc'.
Proof.
  unfold parse_line. intros Hline Hacc.
  destruct (negb (Str.truthy (Str.strip line))); [by injection Hline as <-|].
  assert (Hkeep : forall l,
             (if Str.truthy (Str.strip l) && (3 <? Str.len (Str.strip l))
              then Ok (acc ++ [Str.strip l]) else Ok acc) = Ok acc' ->
             Forall (fun s => (4 <= String.length s)%nat /\ Str.strip s = s) acc').
  { intros l. destruct (Str.truthy (Str.strip l)); cbn [andb];
      [|by intros [= <-]].
    destruct (Z.ltb_spec 3 (Str.len (Str.strip l))) as [Hlen|_]; [|by intros [= <-]].
    intros [= <-]. apply Forall_app. split; [exact Hacc|].
    apply List.Forall_cons; [|apply List.Forall_nil].
    split; [unfold Str.len in Hlen; lia | apply strip_idempotent]. }
  destruct (Str.startswith_any (Str.strip line) markers
            || Str.startswith_codes (Str.strip line) misread_bullet).
  - destruct (Str.getitem (Str.strip line) 1) as [c|]; [|discriminate].
    cbn [rbind] in Hline.
    destruct (Ascii.eqb c "."); cbn [rbind] in Hline; exact (Hkeep _ Hline).
  - cbn [rbind] in Hline. exact (Hkeep _ Hline).
Qed.

Lemma parse_lines_entries lines : forall acc acc',
  parse_lines lines acc = Ok acc' ->
  Forall (fun s => (4 <= String.length s)%nat /\ Str.strip s = s) acc ->
  Forall (fun s => (4 <= String.length s)%nat /\ Str.strip s = s) acc'.
Proof.
  induction lines as [|line lines IH]; intros acc acc' Hlines Hacc.
  - by injection Hlines as <-.
  - cbn [parse_lines] in Hlines.
    destruct (parse_line line acc) as [acc1|] eqn:Hline; [|discriminate].
    cbn [rbind] in Hlines.
    exact (IH _ _ Hlines (parse_line_entries _ _ _ Hline Hacc)).
Qed.

Lemma parse_subgoals_entries response subgoals :
  _parse_subgoals response = Ok subgoals ->
  Forall (fun s => (4 <= String.length s)%nat /\ Str.strip s = s) subgoals.
Proof.
  unfold _parse_subgoals.
  destruct (negb (Str.truthy response)); [intros [= <-]; apply List.Forall_nil|].
  intros Hparse. exact (parse_lines_entries _ _ _ Hparse (List.Forall_nil _)).
Qed.

Lemma fallback_entries goal :
  Forall (fun s => (4 <= String.length s)%nat /\ Str.strip s = s)
         (_generate_fallback_subgoals goal).
Proof.
  unfold _generate_fallback_subgoals, fallback_subgoals. cbn [first_match].
  repeat match goal with |- context [if ?b then _ else _] => destruct b end;
    repeat (apply List.Forall_cons; [split; [cbn; lia | reflexivity]|]);
    apply List.Forall_nil.
Qed.

(** A line on which [parse_line] raises is a bare bullet. *)
Lemma parse_line_raise_bare line acc e :
  parse_line line acc = Raise e ->
  Str.strip line = "-" \/ Str.strip line = "*".
Proof.
  unfold parse_line, Str.getitem.
  destruct (negb (Str.truthy (Str.strip line))); [discriminate|].
  rewrite startswith_misread_bullet, orb_false_r.
  destruct (Str.startswith_any (Str.strip line) markers) eqn:Hstart.
  - destruct (Str.strip line) as [|a [|b r]]; [discriminate| |].
    + intros _. revert Hstart.
      unfold Str.startswith_any, markers, Str.startswith. cbn [existsb].
      rewrite !prefix_cons, !prefix_cons_nil, !prefix_nil.
      repeat case_bool_decide; subst; cbn; try discriminate; auto.
    + cbn [String.get rbind].
      destruct (Ascii.eqb b "."); cbn [rbind];
        match goal with |- (if ?c then _ else _) = _ -> _ => destruct c end;
        discriminate.
  - cbn [rbind].
    match goal with |- (if ?c then _ else _) = _ -> _ => destruct c end;
      discriminate.
Qed.

Lemma parse_lines_raise_bare lines : forall acc e,
  parse_lines lines acc = Raise e ->
  Exists (fun line => Str.strip line = "-" \/ Str.strip line = "*") lines.
Proof.
  induction lines as [|line lines IH]; intros acc e; [discriminate|].
  cbn [parse_lines].
  destruct (parse_line line acc) as [acc'|e'] eqn:Hline; cbn [rbind].
  - intros Hrest. apply Exists_cons_tl. exact (IH _ _ Hrest).
  - intros _. apply Exists_cons_hd. exact (parse_line_raise_bare _ _ _ Hline).
Qed.

Lemma parse_subgoals_raise_bare response e :
  _parse_subgoals response = Raise e -> ParseSpec.bare_bullet response.
Proof.
  intros He. unfold _parse_subgoals in He.
  destruct (negb (Str.truthy response)); [discriminate|].
  exact (parse_lines_raise_bare _ _ _ He).
Qed.

(** X1: [_parse_subgoals] raises exactly on the responses that have a line
    consisting of a bare "-" or "*"; on those it raises [IndexError], on
    every other response it returns a list, and [IndexError] is the only
    exception it ever raises. *)
Theorem parse_subgoals_raises_iff response :
  ((exists e, _parse_subgoals response = Raise e) <-> ParseSpec.bare_bullet response)
  /\ (_parse_subgoals response = Raise IndexError <-> ParseSpec.bare_bullet response)
  /\ (forall e, _parse_subgoals response = Raise e -> e = IndexError)
  /\ (~ ParseSpec.bare_bullet response ->
      exists subgoals, _parse_subgoals response = Ok subgoals).
Proof.
  split; [|split; [|split]].
  - split.
    + intros [e He]. exact (parse_subgoals_raise_bare _ _ He).
    + intros Hbare. exists IndexError. exact (parse_subgoals_bare_bullet _ Hbare).
  - split; [apply parse_subgoals_raise_bare | apply parse_subgoals_bare_bullet].
  - intros e He.
    pose proof (parse_subgoals_bare_bullet _ (parse_subgoals_raise_bare _ _ He)) as Hix.
    congruence.
  - intros Hno. destruct (_parse_subgoals response) as [subgoals|e] eqn:He;
      [by exists subgoals|].
    destruct (Hno (parse_subgoals_raise_bare _ _ He)).
Qed.

(** X2: every subgoal the oracle hands out has at least four characters
    and no whitespace around it, whether it was parsed from a backend
    response or taken from the fallback table. *)
Theorem generate_subgoals_entries :
  (forall response subgoals,
      _parse_subgoals response = Ok subgoals ->
      Forall (fun s => (4 <= String.length s)%nat /\ Str.strip s = s) subgoals)
  /\ (forall (env : Env State) self goal st,
         exists subgoals,
           generate_subgoals env self goal st = Ok subgoals
           /\ Forall (fun s => (4 <= String.length s)%nat /\ Str.strip s = s) subgoals).
Proof.
  split; [exact parse_subgoals_entries|].
  intros env self goal st. unfold generate_subgoals.
  destruct (enabled self); [|eexists; split; [reflexivity|apply fallback_entries]].
  destruct (llm_client self) as [client|];
    [|eexists; split; [reflexivity|apply fallback_entries]].
  destruct (_create_subgoal_prompt env self goal st) as [prompt|]; cbn [rbind try_except];
    [|eexists; split; [reflexivity|apply fallback_entries]].
  destruct (_parse_subgoals _) as [parsed|] eqn:Hparse; cbn [rbind try_except];
    [|eexists; split; [reflexivity|apply fallback_entries]].
  eexists. split; [reflexivity|]. rewrite slice_to_5.
  apply Forall_take. exact (parse_subgoals_entries _ _ Hparse).
Qed.

(** The canned text of the client parses to four subgoals. *)
Lemma parse_fallback_generation prompt :
  exists subgoals,
    _parse_subgoals (_fallback_generation prompt) = Ok subgoals
    /\ length subgoals = 4%nat.
Proof.
  unfold _fallback_generation.
  repeat match goal with |- context [if ?b then _ else _] => destruct b end;
    eexists; split; reflexivity.
Qed.

(** X3: when the generator holds a client and the backend does not answer
    with status 200 (the request fails, or another status comes back), the
    client's canned text is parsed: [generate_subgoals] returns its four
    numbered subgoals, and the generator's own fallback table is not
    consulted. *)
Theorem generate_subgoals_backend_down (env : Env State) self client goal st prompt :
  enabled self = true ->
  llm_client self = Some client ->
  _create_subgoal_prompt env self goal st = Ok prompt ->
  (forall response,
      http_post env client prompt (max_tokens self) (temperature self)
      <> Some (200, response)) ->
  exists subgoals,
    _parse_subgoals (_fallback_generation prompt) = Ok subgoals
    /\ generate_subgoals env self goal st = Ok subgoals
    /\ length subgoals = 4%nat.
Proof.
  intros Hen Hcl Hprompt Hdown.
  destruct (parse_fallback_generation prompt) as (subgoals & Hparse & Hlen).
  exists subgoals. split; [exact Hparse|]. split; [|exact Hlen].
  rewrite (generate_subgoals_remote _ _ _ _ _ _ Hen Hcl Hprompt).
  assert (Hgen : LlamaClient_generate env client prompt (max_tokens self) (temperature self)
                 = _fallback_generation prompt).
  { unfold LlamaClient_generate.
    destruct (http_post env client prompt (max_tokens self) (temperature self))
      as [[status response]|] eqn:Hpost; [|reflexivity].
    destruct (Z.eqb_spec status 200) as [->|_]; [|reflexivity].
    by destruct (Hdown response). }
  rewrite Hgen, Hparse. cbn [rbind try_except]. rewrite slice_to_5.
  by rewrite take_ge by lia.
Qed.

Lemma estimate_steps_bounds analysis_text :
  2 <= _estimate_steps analysis_text <= 6.
Proof. unfold _estimate_steps. destruct (negb (Str.truthy analysis_text)); lia. Qed.

(** X4: the step estimate of [analyze_task] lies between 2 and 6 in every
    environment, for every generator and task; without a usable oracle it
    is 3. *)
Theorem analyze_task_estimated_steps (env : Env State) self task_text :
  exists r,
    analyze_task env self task_text = Ok r
    /\ 2 <= estimated_steps r <= 6
    /\ (enabled self = false \/ llm_client self = None -> estimated_steps r = 3).
Proof.
  unfold analyze_task.
  destruct (enabled self);
    [|eexists; split; [reflexivity|]; split; [cbn; lia|reflexivity]].
  destruct (llm_client self) as [client|];
    [|eexists; split; [reflexivity|]; split; [cbn; lia|reflexivity]].
  destruct (str_format env _ "task" task_text) as [prompt|]; cbn [rbind try_except];
    (eexists; split; [reflexivity|]; split;
     [cbn [estimated_steps _analyze_task_fallback]; try apply estimate_steps_bounds; lia
     |intros [|]; discriminate]).
Qed.

End ParseMore.

Lemma parse_subgoals_raises_iff_witness :
  ParseSpec.bare_bullet ("1. Find trees" +:+ Str.nl +:+ "*")
  /\ LLM._parse_subgoals ("1. Find trees" +:+ Str.nl +:+ "*") = Raise IndexError.
Proof.
  assert (Hbare : ParseSpec.bare_bullet ("1. Find trees" +:+ Str.nl +:+ "*")).
  { apply Exists_cons_tl, Exists_cons_hd. right. reflexivity. }
  split; [exact Hbare|].
  exact (proj2 (proj1 (proj2 (parse_subgoals_raises_iff _))) Hbare).
Defined.

Lemma generate_subgoals_entries_witness :
  LLM._parse_subgoals SampleLLM.numbered_response
  = Ok ["Find trees"; "Chop wood"; "Return"]
  /\ Forall (fun s => (4 <= String.length s)%nat /\ Str.strip s = s)
            ["Find trees"; "Chop wood"; "Return"].
Proof.
  assert (Hparse : LLM._parse_subgoals SampleLLM.numbered_response
                   = Ok ["Find trees"; "Chop wood"; "Return"]) by reflexivity.
  split; [exact Hparse|].
  exact (proj1 (@generate_subgoals_entries unit) _ _ Hparse).
Defined.

Lemma generate_subgoals_backend_down_witness :
  (LLM.enabled SampleLLM.default_generator = true
   /\ LLM.llm_client SampleLLM.default_generator
      = Some (LLM.LlamaClient_init LLM.empty_llm_config)
   /\ LLM._create_subgoal_prompt Sample.offline SampleLLM.default_generator
        "collect wood" None
      = Ok "Generate 3-5 specific subgoals for: collect wood")
  /\ LLM.generate_subgoals Sample.offline SampleLLM.default_generator
       "collect wood" None
     = Ok ["Find resource location"; "Approach resource"; "Use appropriate tool";
           "Gather resource"].
Proof.
  split; [repeat split|].
  destruct (generate_subgoals_backend_down Sample.offline SampleLLM.default_generator
              (LLM.LlamaClient_init LLM.empty_llm_config) "collect wood" None
              "Generate 3-5 specific subgoals for: collect wood"
              eq_refl eq_refl eq_refl)
    as (subgoals & Hparse & Hgen & _).
  - intros response. discriminate.
  - rewrite Hgen. rewrite <- Hparse. reflexivity.
Defined.

(** ** The chat prompt *)
Section ChatFacts.
Import LLM LlamaChat.
Context {State : Type}.








End ChatFacts.

(** ** The replay buffer *)
Section MemoryFacts.
Import Memory.
Context {A : Type}.

Lemma push_below (self : ReplayBuffer A) t :
  Z.of_nat (length (buffer self)) < capacity self ->
  push self t = Ok {| capacity := capacity self; buffer := buffer self ++ [t] |}.
Proof.
  intros Hlt. unfold push.
  destruct (Z.leb_spec (capacity self) (Z.of_nat (length (buffer self)))); [lia|].
  reflexivity.
Qed.

Lemma push_full (self : ReplayBuffer A) t x rest :
  buffer self = x :: rest ->
  capacity self <= Z.of_nat (length (buffer self)) ->
  push self t = Ok {| capacity := capacity self; buffer := rest ++ [t] |}.
Proof.
  intros Hbuf Hge. unfold push.
  destruct (Z.leb_spec (capacity self) (Z.of_nat (length (buffer self)))); [|lia].
  rewrite Hbuf. reflexivity.
Qed.

(** One push into a buffer within its capacity keeps the most recent
    [capacity] transitions. *)
Lemma push_keeps_last (self : ReplayBuffer A) t :
  1 <= capacity self ->
  Z.of_nat (length (buffer self)) <= capacity self ->
  push self t
  = Ok {| capacity := capacity self;
          buffer := drop (length (buffer self ++ [t]) - Z.to_nat (capacity self))
                         (buffer self ++ [t]) |}.
Proof.
  intros Hcap Hlen.
  destruct (decide (Z.of_nat (length (buffer self)) < capacity self)) as [Hlt|Hfull].
  - rewrite (push_below _ _ Hlt). do 2 f_equal.
    rewrite length_app. cbn [length].
    replace (length (buffer self) + 1 - Z.to_nat (capacity self))%nat with 0%nat by lia.
    reflexivity.
  - destruct (buffer self) as [|x rest] eqn:Hbuf; [cbn in *; lia|].
    rewrite (push_full _ t x rest Hbuf) by (rewrite Hbuf; lia). do 2 f_equal.
    rewrite length_app. cbn [length] in *.
    replace (S (length rest) + 1 - Z.to_nat (capacity self))%nat with 1%nat by lia.
    reflexivity.
Qed.

Lemma keep_last_app (c : nat) (l ts : list A) :
  drop (length (drop (length l - c) l ++ ts) - c) (drop (length l - c) l ++ ts)
  = drop (length (l ++ ts) - c) (l ++ ts).
Proof.
  transitivity (drop (length (l ++ ts) - c)
                     ((take (length l - c) l ++ drop (length l - c) l) ++ ts));
    [|by rewrite take_drop].
  rewrite <- app_assoc.
  rewrite (drop_app_ge (take (length l - c) l))
    by (rewrite length_take, length_app; lia).
  f_equal. rewrite !length_app, length_drop, length_take. lia.
Qed.

Lemma push_all_keeps_last transitions : forall (self : ReplayBuffer A),
  1 <= capacity self ->
  Z.of_nat (length (buffer self)) <= capacity self ->
  push_all self transitions
  = Ok {| capacity := capacity self;
          buffer := drop (length (buffer self ++ transitions)
                          - Z.to_nat (capacity self))
                         (buffer self ++ transitions) |}.
Proof.
  induction transitions as [|t ts IH]; intros self Hcap Hlen.
  - cbn [push_all]. rewrite app_nil_r.
    replace (length (buffer self) - Z.to_nat (capacity self))%nat with 0%nat by lia.
    by destruct self.
  - cbn [push_all]. rewrite (push_keeps_last _ _ Hcap Hlen). cbn [rbind].
    rewrite IH; cbn [capacity buffer]; [|exact Hcap|].
    + rewrite keep_last_app.
      replace ((buffer self ++ [t]) ++ ts) with (buffer self ++ t :: ts)
        by (by rewrite <- app_assoc).
      reflexivity.
    + rewrite length_drop, length_app. cbn [length]. lia.
Qed.

(** X6: a replay buffer of capacity at least 1 that starts empty holds,
    after any sequence of pushes, exactly the most recent [capacity]
    transitions in the order they were pushed, so its length is the smaller
    of the number of pushes and the capacity; no push raises. *)
Theorem replay_buffer_keeps_most_recent (cap : Z) (transitions : list A) :
  1 <= cap ->
  exists self,
    push_all (ReplayBuffer_init cap) transitions = Ok self
    /\ capacity self = cap
    /\ buffer self = drop (length transitions - Z.to_nat cap) transitions
    /\ len self = Z.min (Z.of_nat (length transitions)) cap.
Proof.
  intros Hcap.
  rewrite (push_all_keeps_last transitions (ReplayBuffer_init cap)) by (cbn; lia).
  eexists. split; [reflexivity|]. cbn [capacity buffer ReplayBuffer_init app].
  split; [reflexivity|]. split; [reflexivity|].
  unfold len. cbn [buffer]. rewrite length_drop. lia.
Qed.

(** X7: with a capacity of zero or less the very first push raises
    [IndexError]: the buffer counts as full while it is empty, and
    [pop(0)] has nothing to remove. *)
Theorem replay_buffer_no_capacity (cap : Z) (transition : A) :
  cap <= 0 ->
  push (ReplayBuffer_init cap) transition = Raise IndexError.
Proof.
  intros Hcap. unfold push. cbn [capacity buffer ReplayBuffer_init length].
  destruct (Z.leb_spec cap (Z.of_nat 0)); [reflexivity|lia].
Qed.

End MemoryFacts.

Lemma replay_buffer_keeps_most_recent_witness :
  1 <= 2
  /\ exists self,
       Memory.push_all (Memory.ReplayBuffer_init 2) [10; 20; 30] = Ok self
       /\ Memory.buffer self = [20; 30].
Proof.
  assert (Hcap : 1 <= 2) by lia.
  split; [exact Hcap|].
  destruct (replay_buffer_keeps_most_recent 2 [10; 20; 30] Hcap)
    as (self & Hpush & _ & Hbuf & _).
  exists self. split; [exact Hpush | exact Hbuf].
Defined.

Lemma replay_buffer_no_capacity_witness :
  0 <= 0 /\ Memory.push (Memory.ReplayBuffer_init 0) 10 = Raise IndexError.
Proof.
  assert (Hcap : 0 <= 0) by lia.
  split; [exact Hcap|].
  exact (replay_buffer_no_capacity 0 10 Hcap).
Defined.

(** ** Trees in general *)
Section TreeMore.
Import MCTS TreeShape TreeWf.
Context {State F R : Type} `{FloatOps F} `{RandomGen F R}.
Implicit Types (h : list (MCTSNode State F)) (n m : MCTSNode State F).

(** The loop of [max]: the items seen so far are [pre], the best of them
    [best], and [mid] the ones seen after it. *)
Lemma max_loop_first_maximal {A} (key : A -> result Z) (items : list A) :
  forall pre best kbest mid x,
    key best = Ok kbest ->
    (forall y, y ∈ pre -> exists ky, key y = Ok ky /\ ky < kbest) ->
    (forall y, y ∈ mid -> exists ky, key y = Ok ky /\ ky <= kbest) ->
    max_loop Z.gtb key best kbest items = Ok x ->
    exists pre' post' kx,
      pre ++ best :: mid ++ items = pre' ++ x :: post'
      /\ key x = Ok kx
      /\ (forall y, y ∈ pre' -> exists ky, key y = Ok ky /\ ky < kx)
      /\ (forall y, y ∈ post' -> exists ky, key y = Ok ky /\ ky <= kx).
Proof.
  induction items as [|y rest IH]; intros pre best kbest mid x Hbest Hpre Hmid.
  - intros [= <-]. exists pre, mid, kbest. rewrite app_nil_r. auto.
  - cbn [max_loop]. destruct (key y) as [ky|] eqn:Hy; [|discriminate].
    cbn [rbind]. destruct (Z.gtb_spec ky kbest) as [Hgt|Hle]; intros Hloop.
    + destruct (IH (pre ++ best :: mid) y ky [] x Hy) as (pre' & post' & kx & Heq & Hrest);
        [| |exact Hloop|].
      * intros z Hz. apply elem_of_app in Hz as [Hz|Hz].
        -- destruct (Hpre z Hz) as (kz & Hkz & ?). exists kz. split; [exact Hkz|lia].
        -- apply elem_of_cons in Hz as [->|Hz].
           ++ exists kbest. split; [exact Hbest|lia].
           ++ destruct (Hmid z Hz) as (kz & Hkz & ?). exists kz. split; [exact Hkz|lia].
      * intros z Hz. by apply elem_of_nil in Hz.
      * exists pre', post', kx. split; [|exact Hrest].
        rewrite <- Heq. cbn [app]. by rewrite <- !app_assoc.
    + destruct (IH pre best kbest (mid ++ [y]) x Hbest Hpre)
        as (pre' & post' & kx & Heq & Hrest); [|exact Hloop|].
      * intros z Hz. apply elem_of_app in Hz as [Hz|Hz]; [by apply Hmid|].
        apply list_elem_of_singleton in Hz as ->. exists ky. split; [exact Hy|lia].
      * exists pre', post', kx. split; [|exact Hrest].
        rewrite <- Heq. by rewrite <- !app_assoc.
Qed.

(** X8: the child the extraction loop (and [search]) moves to is the first
    child with the highest visit count: every child before it in
    [children] has strictly fewer visits, every child after it at most as
    many. *)
Theorem most_visited_is_first_maximal h (cs : list nat) best :
  py_max Z.gtb (fun c => cn <- deref h c ;; Ok (visits cn)) cs = Ok best ->
  exists before after nb,
    cs = before ++ best :: after
    /\ h !! best = Some nb
    /\ (forall c, c ∈ before ->
          exists nc, h !! c = Some nc /\ visits nc < visits nb)
    /\ (forall c, c ∈ after ->
          exists nc, h !! c = Some nc /\ visits nc <= visits nb).
Proof.
  assert (Hkey : forall c k,
             (cn <- deref h c ;; Ok (visits cn)) = Ok k ->
             exists nc, h !! c = Some nc /\ visits nc = k).
  { intros c k. unfold deref. destruct (h !! c) as [nc|]; [|discriminate].
    cbn [rbind]. intros [= <-]. eauto. }
  destruct cs as [|c cs]; [discriminate|]. cbn [py_max].
  destruct (cn <- deref h c ;; Ok (visits cn)) as [kc|] eqn:Hc; [|discriminate].
  cbn [rbind]. intros Hloop.
  destruct (max_loop_first_maximal
              (fun c => cn <- deref h c ;; Ok (visits cn)) cs [] c kc [] best Hc)
    as (before & after & kb & Heq & Hb & Hbefore & Hafter); [| |exact Hloop|].
  - intros y Hy. by apply elem_of_nil in Hy.
  - intros y Hy. by apply elem_of_nil in Hy.
  - destruct (Hkey _ _ Hb) as (nb & Hnb & <-).
    exists before, after, nb. split; [exact Heq|]. split; [exact Hnb|].
    split; intros y Hy.
    + destruct (Hbefore y Hy) as (ky & Hky & Hlt).
      destruct (Hkey _ _ Hky) as (ny & Hny & <-). eauto.
    + destruct (Hafter y Hy) as (ky & Hky & Hle).
      destruct (Hkey _ _ Hky) as (ny & Hny & <-). eauto.
Qed.

(** X9: [add_child] allocates the child at the end of the arena, one level
    below its parent, unvisited and without children, appends its address
    to the parent's [children], leaves every other node as it was, and keeps
    parents allocated before their children. *)
Theorem add_child_allocates h self n (st : State) a :
  h !! self = Some n ->
  exists h',
    add_child h self st a = Ok (length h, h')
    /\ length h' = S (length h)
    /\ h' !! length h
       = Some {| state := st; action := Some a; parent := Some self; children := [];
                 visits := 0; value := of_int 0; depth := depth n + 1 |}
    /\ h' !! self = Some (set_children n (children n ++ [length h]))
    /\ (forall j, j <> self -> (j < length h)%nat -> h' !! j = h !! j)
    /\ (parents_below h -> parents_below h').
Proof.
  intros Hn. pose proof (lookup_lt_Some _ _ _ Hn) as Hself.
  unfold add_child, MCTSNode_init. rewrite (deref_lookup _ _ _ Hn). cbn [rbind].
  eexists. split; [reflexivity|].
  split; [rewrite length_insert, length_app; cbn; lia|].
  split; [|split; [|split]].
  - rewrite list_lookup_insert_ne by lia.
    rewrite lookup_app_r by lia. by rewrite Nat.sub_diag.
  - rewrite list_lookup_insert_eq by (rewrite length_app; lia). reflexivity.
  - intros j Hj Hlt. rewrite list_lookup_insert_ne by congruence.
    by rewrite lookup_app_l.
  - intros Hwf i x p Hx Hp.
    destruct (decide (i = self)) as [->|Hne].
    + rewrite list_lookup_insert_eq in Hx by (rewrite length_app; lia).
      injection Hx as <-. exact (Hwf _ _ _ Hn Hp).
    + rewrite list_lookup_insert_ne in Hx by congruence.
      apply lookup_app_Some in Hx as [Hx | [Hge Hx]]; [exact (Hwf _ _ _ Hx Hp)|].
      apply list_lookup_singleton_Some in Hx as [Hi <-].
      cbn in Hp. injection Hp as <-. lia.
Qed.

Lemma on_path_le h node j :
  parents_below h -> on_path h node j -> (j <= node)%nat.
Proof.
  intros Hwf Hpath. induction Hpath as [|node n p j Hn Hp _ IH]; [lia|].
  pose proof (Hwf _ _ _ Hn Hp). lia.
Qed.

Lemma on_path_same_parents h h' node j :
  (forall i, parent <$> h' !! i = parent <$> h !! i) ->
  on_path h node j -> on_path h' node j.
Proof.
  intros Hsame Hpath. induction Hpath as [|node n p j Hn Hp _ IH]; [constructor|].
  specialize (Hsame node). rewrite Hn in Hsame. cbn in Hsame.
  destruct (h' !! node) as [n'|] eqn:Hn'; [|discriminate].
  cbn in Hsame. injection Hsame as Hpar.
  apply (on_path_up _ _ n' p); [exact Hn'|congruence|exact IH].
Qed.

Lemma visited_same_parents h node n v :
  h !! node = Some n ->
  forall i, parent <$> <[node := visited v n]> h !! i = parent <$> h !! i.
Proof.
  intros Hn i. destruct (decide (node = i)) as [<-|Hne].
  - rewrite list_lookup_insert_eq by (by apply lookup_lt_Some in Hn).
    by rewrite Hn.
  - by rewrite list_lookup_insert_ne.
Qed.

Lemma backpropagate_loop_general v : forall node h fuel,
  parents_below h -> (node < length h)%nat -> (node < fuel)%nat ->
  exists h',
    backpropagate_loop fuel h (Some node) v = Ok h'
    /\ length h' = length h
    /\ forall j n, h !! j = Some n ->
         (on_path h node j -> h' !! j = Some (visited v n))
         /\ (~ on_path h node j -> h' !! j = Some n).
Proof.
  induction node as [node IH] using lt_wf_ind. intros h fuel Hwf Hlen Hfuel.
  destruct fuel as [|fuel]; [lia|]. cbn [backpropagate_loop].
  destruct (lookup_lt_is_Some_2 h _ Hlen) as [n Hn].
  rewrite (deref_lookup _ _ _ Hn). cbn [rbind].
  change (set_stats n (visits n + 1) (fadd (value n) v)) with (visited v n).
  destruct (visited_fields v n) as (-> & _).
  destruct (parent n) as [p|] eqn:Hp.
  - pose proof (Hwf _ _ _ Hn Hp) as Hlt.
    assert (Hwf1 : parents_below (<[node := visited v n]> h)).
    { intros i x q Hx Hq. destruct (decide (node = i)) as [<-|Hne].
      - rewrite list_lookup_insert_eq in Hx by lia. injection Hx as <-.
        destruct (visited_fields v n) as (Hpar & _). rewrite Hpar in Hq.
        exact (Hwf _ _ _ Hn Hq).
      - rewrite list_lookup_insert_ne in Hx by exact Hne. exact (Hwf _ _ _ Hx Hq). }
    destruct (IH p Hlt (<[node := visited v n]> h) fuel Hwf1)
      as (h' & Hloop & Hlen' & Hh'); [rewrite length_insert; lia|lia|].
    exists h'. split; [exact Hloop|]. split; [by rewrite Hlen', length_insert|].
    intros j x Hx. destruct (decide (node = j)) as [<-|Hne].
    + assert (x = n) as -> by congruence.
      assert (Hoff : ~ on_path (<[node := visited v n]> h) p node).
      { intros Hpath. apply (on_path_le _ _ _ Hwf1) in Hpath. lia. }
      destruct (Hh' node (visited v n)) as [_ Hkeep];
        [by rewrite list_lookup_insert_eq by lia|].
      split; [intros _; exact (Hkeep Hoff)|]. intros Hno. destruct Hno. constructor.
    + destruct (Hh' j x) as [Hon Hoff]; [by rewrite list_lookup_insert_ne|].
      split.
      * intros Hpath. apply Hon.
        apply (on_path_same_parents h); [intros i; by apply visited_same_parents|].
        inversion Hpath as [|? n0 p0 ? Hn0 Hp0 Hrest]; subst; [done|].
        congruence.
      * intros Hno. apply Hoff. intros Hpath. apply Hno.
        apply (on_path_up _ _ n p); [exact Hn|exact Hp|].
        apply (on_path_same_parents (<[node := visited v n]> h)); [|exact Hpath].
        intros i. symmetry. by apply visited_same_parents.
  - eexists. split; [by destruct fuel|]. split; [by rewrite length_insert|].
    intros j x Hx. destruct (decide (node = j)) as [<-|Hne].
    + assert (x = n) as -> by congruence.
      split; [intros _; by rewrite list_lookup_insert_eq by lia|].
      intros Hno. destruct Hno. constructor.
    + split; [|intros _; by rewrite list_lookup_insert_ne].
      intros Hpath. inversion Hpath as [|? n0 p0 ? Hn0 Hp0 Hrest]; subst; [done|].
      congruence.
Qed.

(** X10: on any tree whose parents were allocated before their children,
    [backpropagate] from a node returns; it adds one visit and the
    simulated value to that node and to each of its ancestors, and leaves
    every other node, and the parent, children, depth, action and state of
    every node, as they were. *)
Theorem backpropagate_visits_ancestors h node v :
  parents_below h -> (node < length h)%nat ->
  exists h',
    backpropagate h node v = Ok h'
    /\ length h' = length h
    /\ forall j n, h !! j = Some n ->
         (on_path h node j ->
          h' !! j = Some (set_stats n (visits n + 1) (fadd (value n) v)))
         /\ (~ on_path h node j -> h' !! j = Some n).
Proof.
  intros Hwf Hnode. unfold backpropagate.
  exact (backpropagate_loop_general v node h (length h) Hwf Hnode Hnode).
Qed.

End TreeMore.

Lemma two_children_tree_parents_below :
  TreeWf.parents_below (SampleTree.two_children_tree tt (of_int 0 : option Q)).
Proof.
  intros i n p Hn Hp.
  destruct i as [|[|[|i]]]; cbn in Hn; try discriminate;
    injection Hn as <-; cbn in Hp; try discriminate; injection Hp as <-; lia.
Qed.

Lemma most_visited_is_first_maximal_witness :
  py_max Z.gtb
    (fun c => cn <- MCTS.deref (SampleTree.two_children_tree tt (of_int 0 : option Q)) c ;;
              Ok (MCTS.visits cn))
    [1; 2]%nat
  = Ok 1%nat
  /\ exists before after nb,
       [1; 2]%nat = before ++ 1%nat :: after
       /\ SampleTree.two_children_tree tt (of_int 0 : option Q) !! 1%nat = Some nb.
Proof.
  assert (Hmax : py_max Z.gtb
            (fun c => cn <- MCTS.deref (SampleTree.two_children_tree tt
                                          (of_int 0 : option Q)) c ;;
                      Ok (MCTS.visits cn))
            [1; 2]%nat = Ok 1%nat) by reflexivity.
  split; [exact Hmax|].
  destruct (most_visited_is_first_maximal _ _ _ Hmax)
    as (before & after & nb & Heq & Hnb & _).
  exists before, after, nb. split; [exact Heq | exact Hnb].
Defined.

Lemma add_child_allocates_witness :
  (exists n, SamplePlanner.one_child_tree tt (of_int 0 : option Q) !! 0%nat = Some n)
  /\ exists h',
       MCTS.add_child (SamplePlanner.one_child_tree tt (of_int 0 : option Q)) 0%nat tt
         "chop wood" = Ok (2%nat, h')
       /\ length h' = 3%nat.
Proof.
  split; [eexists; reflexivity|].
  destruct (add_child_allocates (SamplePlanner.one_child_tree tt (of_int 0 : option Q))
              0%nat _ tt "chop wood" eq_refl)
    as (h' & Hadd & Hlen & _).
  exists h'. split; [exact Hadd | exact Hlen].
Defined.

Lemma backpropagate_visits_ancestors_witness :
  (TreeWf.parents_below (SampleTree.two_children_tree tt (of_int 0 : option Q))
   /\ (2 < length (SampleTree.two_children_tree tt (of_int 0 : option Q)))%nat)
  /\ exists h',
       MCTS.backpropagate (SampleTree.two_children_tree tt (of_int 0 : option Q))
         2%nat (of_int 1)
       = Ok h'
       /\ length h' = 3%nat.
Proof.
  assert (Hlen : (2 < length (SampleTree.two_children_tree tt
                                (of_int 0 : option Q)))%nat) by (cbn; lia).
  split; [split; [exact two_children_tree_parents_below | exact Hlen]|].
  destruct (backpropagate_visits_ancestors _ 2%nat (of_int 1)
              two_children_tree_parents_below Hlen)
    as (h' & Hback & Hlen' & _).
  exists h'. split; [exact Hback | exact Hlen'].
Defined.

(** ** The planner and the search, further *)
Section PlannerMore.
Import LLM MCTS TreeShape Planning.
Context {State F R : Type} `{FloatOps F} `{RandomGen F R}.
Implicit Types (h : list (MCTSNode State F)) (n m : MCTSNode State F).
Implicit Types (self : Planner F) (env : Env State) (g : R).

Lemma generate_subgoals_at_most_five env gen goal st subgoals :
  generate_subgoals env gen goal st = Ok subgoals -> (length subgoals <= 5)%nat.
Proof.
  unfold generate_subgoals.
  destruct (LLM.enabled gen), (llm_client gen) as [client|];
    try (intros [= <-]; rewrite length_fallback; lia).
  destruct (_create_subgoal_prompt env gen goal st) as [prompt|]; cbn [rbind try_except];
    [|intros [= <-]; rewrite length_fallback; lia].
  destruct (_parse_subgoals _) as [parsed|]; cbn [rbind try_except];
    [|intros [= <-]; rewrite length_fallback; lia].
  intros [= <-]. rewrite slice_to_5, length_take. lia.
Qed.

Lemma length_slice_to {A} (l : list A) k :
  (length (slice_to l k) <= length l)%nat
  /\ (0 <= k -> Z.of_nat (length (slice_to l k)) <= k).
Proof.
  unfold slice_to. destruct (Z.leb_spec 0 k); rewrite length_take; split; lia.
Qed.

Lemma length_basic goal : length (_generate_basic_subgoals goal) = 3%nat.
Proof.
  unfold _generate_basic_subgoals, basic_subgoals. cbn [first_match].
  repeat match goal with |- context [if ?b then _ else _] => destruct b end;
    reflexivity.
Qed.

(** X11: the planner never works with more than five candidate subgoals.
    With a generator in use the list is cut to [max_subgoals] (when that is
    not negative); without one the list has exactly three entries, whatever
    [max_subgoals] says. *)
Theorem planner_subgoals_bounded env self (observation : State) goal :
  exists subgoals,
    _generate_subgoals env self observation goal = Ok subgoals
    /\ (length subgoals <= 5)%nat
    /\ (llm self = None \/ subgoal_enabled self = false -> length subgoals = 3%nat)
    /\ (llm self <> None -> subgoal_enabled self = true -> 0 <= max_subgoals self ->
        Z.of_nat (length subgoals) <= max_subgoals self).
Proof.
  unfold _generate_subgoals.
  destruct (llm self) as [gen|] eqn:Hllm.
  - destruct (subgoal_enabled self) eqn:Hsg.
    + destruct (generate_subgoals_returns env gen goal (Some observation)) as [l Hl].
      rewrite Hl. cbn [rbind try_except].
      pose proof (generate_subgoals_at_most_five _ _ _ _ _ Hl).
      destruct (length_slice_to l (max_subgoals self)) as [Hle Hmax].
      eexists. split; [reflexivity|]. split; [lia|].
      split; [intros [|]; discriminate|]. intros _ _. exact Hmax.
    + eexists. split; [reflexivity|]. rewrite length_basic.
      split; [lia|]. split; [done|]. intros _ ?. discriminate.
  - eexists. split; [reflexivity|]. rewrite length_basic.
    split; [lia|]. split; [done|]. intros ?. done.
Qed.

Lemma length_flat_map_appended (l : list (MCTSNode State F)) :
  (length (flat_map appended l) <= length l)%nat.
Proof.
  induction l as [|n l IH]; [reflexivity|].
  cbn [flat_map]. rewrite length_app. cbn [length].
  assert (length (appended n) <= 1)%nat; [|lia].
  unfold appended. destruct (action n) as [a|]; [destruct (Str.truthy a)|]; cbn; lia.
Qed.

(** The tree after the simulation loop has at most one node per simulation
    and per level up to the depth cap, besides the root. *)
Lemma run_simulations_length self g (observation : State) subgoals :
  exists h g',
    run_simulations self g observation subgoals = Ok (h, g')
    /\ single_path (map Str.np_str subgoals) h
    /\ Z.of_nat (length h)
       <= 1 + Z.max 0 (Z.min (mcts_simulations self) (max_depth self)).
Proof.
  unfold run_simulations, MCTSNode_init. cbn [rbind].
  destruct (simulation_loop_path self subgoals (Z.to_nat (mcts_simulations self)) _ g
              (single_path_root (map Str.np_str subgoals) observation))
    as (h & g' & Hloop & Hp & _ & Hlen & Hlen0).
  exists h, g'. split; [exact Hloop|]. split; [exact Hp|].
  destruct subgoals as [|s0 rest].
  - rewrite (Hlen0 eq_refl). cbn [length]. lia.
  - rewrite Hlen by done. cbn [length]. lia.
Qed.

(** X12: every action of a plan is one of the candidate subgoals the
    planner obtained for the goal, or the NumPy string of one (the
    candidate without its trailing NUL characters), so a plan is made of
    the candidates and of nothing else when none of them ends in NUL; a
    plan is never longer than the longer of the candidate list and the
    depth cap; a disabled planner returns the empty plan and leaves the
    random generator untouched. *)
Theorem plan_draws_from_subgoals env self g (observation : State) goal :
  exists subgoals pl g',
    _generate_subgoals env self observation goal = Ok subgoals
    /\ plan env self g observation goal = Ok (pl, g')
    /\ (forall a, a ∈ pl ->
          exists s, s ∈ subgoals /\ (a = s \/ a = Str.np_str s))
    /\ (Forall (fun s => Str.np_str s = s) subgoals ->
        forall a, a ∈ pl -> a ∈ subgoals)
    /\ Z.of_nat (length pl) <= Z.max (Z.of_nat (length subgoals)) (max_depth self)
    /\ (enabled self = false -> pl = [] /\ g' = g).
Proof.
  destruct (generate_subgoals_planner_returns env self observation goal)
    as [subgoals Hsg].
  exists subgoals.
  assert (Hfix : forall pl : list string,
            (forall a, a ∈ pl ->
               exists s, s ∈ subgoals /\ (a = s \/ a = Str.np_str s)) ->
            Forall (fun s => Str.np_str s = s) subgoals ->
            forall a, a ∈ pl -> a ∈ subgoals).
  { intros pl Hpl Hfixed a Ha. destruct (Hpl _ Ha) as (s & Hs & [-> | ->]);
      [exact Hs|].
    rewrite Forall_forall in Hfixed. by rewrite (Hfixed _ Hs). }
  destruct (enabled self) eqn:Hen.
  - rewrite (plan_enabled _ _ _ _ _ _ Hen Hsg).
    destruct subgoals as [|s0 rest].
    + exists [], g. split; [exact Hsg|]. split; [reflexivity|].
      split; [intros a Ha; by apply elem_of_nil in Ha|].
      split; [intros _ a Ha; by apply elem_of_nil in Ha|]. split; [cbn; lia|done].
    + destruct (refine_plan_returns self g observation s0 rest)
        as (h & g' & Hrun & Hp & ->).
      destruct (run_simulations_length self g observation (s0 :: rest))
        as (h2 & g2 & Hrun2 & _ & Hlen).
      rewrite Hrun in Hrun2. injection Hrun2 as <- <-.
      pose proof (appended_in_subgoals _ _ Hp) as Hin.
      pose proof (length_flat_map_appended (drop 1 h)) as Hflat.
      rewrite length_drop in Hflat.
      eexists _, _. split; [exact Hsg|]. split; [reflexivity|].
      assert (Hpl : forall a,
                a ∈ match flat_map appended (drop 1 h) with
                    | [] => s0 :: rest
                    | a :: l => a :: l
                    end ->
                exists s, s ∈ s0 :: rest /\ (a = s \/ a = Str.np_str s)).
      { destruct (flat_map appended (drop 1 h)) as [|b l].
        - intros a Ha. exists a. split; [exact Ha | by left].
        - intros a Ha. destruct (in_map_np_str _ _ (Hin _ Ha)) as (s & Hs & ->).
          exists s. split; [exact Hs | by right]. }
      split; [exact Hpl|]. split; [exact (Hfix _ Hpl)|].
      destruct (flat_map appended (drop 1 h)) as [|b l];
        (split; [cbn [length] in *; lia | done]).
  - exists [], g. split; [exact Hsg|]. unfold plan. rewrite Hen. cbn [negb].
    split; [reflexivity|].
    split; [intros a Ha; by apply elem_of_nil in Ha|].
    split; [intros _ a Ha; by apply elem_of_nil in Ha|]. split; [cbn; lia|done].
Qed.

(** X13: in the tree the simulation loop builds, the root has depth 0 and
    no parent, every other node is one level below its parent, and no node
    lies below the depth cap; the tree has at most one node per simulation
    besides the root. *)
Theorem tree_depth_invariant self g (observation : State) subgoals :
  exists h g',
    run_simulations self g observation subgoals = Ok (h, g')
    /\ Z.of_nat (length h)
       <= 1 + Z.max 0 (Z.min (mcts_simulations self) (max_depth self))
    /\ forall i n, h !! i = Some n ->
         0 <= depth n <= Z.max 0 (max_depth self)
         /\ match parent n with
            | None => i = 0%nat /\ depth n = 0
            | Some p => exists pn, h !! p = Some pn /\ depth n = depth pn + 1
            end.
Proof.
  destruct (run_simulations_length self g observation subgoals)
    as (h & g' & Hrun & Hp & Hlen).
  exists h, g'. split; [exact Hrun|]. split; [exact Hlen|].
  intros i n Hn. destruct (sp_node _ _ Hp _ _ Hn) as [Hpar _ Hd _ _].
  pose proof (lookup_lt_Some _ _ _ Hn) as Hi.
  split; [rewrite Hd; lia|]. rewrite Hpar. destruct i as [|i]; cbn [path_parent].
  - split; [reflexivity|]. rewrite Hd. reflexivity.
  - destruct (lookup_lt_is_Some_2 h i) as [pn Hpn]; [lia|].
    exists pn. split; [exact Hpn|].
    rewrite Hd, (pn_depth _ _ _ _ (sp_node _ _ Hp _ _ Hpn)). lia.
Qed.

(** One pass of the simulation loop adds one visit to every node there
    was, and a node it allocates ends the pass with one visit. *)
Lemma simulation_step_visits self subgoals h g h' g' :
  single_path (map Str.np_str subgoals) h ->
  simulation_step self subgoals 0%nat (h, g) = Ok (h', g') ->
  (forall j n, h !! j = Some n ->
     exists n', h' !! j = Some n' /\ visits n' = visits n + 1)
  /\ (forall n', h' !! length h = Some n' -> visits n' = 1).
Proof.
  intros Hp. pose proof (sp_root _ _ Hp) as Hpos.
  destruct (lookup_lt_is_Some_2 h (length h - 1)%nat) as [n Hn]; [lia|].
  destruct (sp_node _ _ Hp _ _ Hn) as [Hpar Hcs Hd Hact Hvis].
  rewrite path_children_last in Hcs by lia.
  assert (Hsame : forall v g1,
             Ok (map (visited v) h, g1) = Ok (h', g') ->
             (forall j x, h !! j = Some x ->
                exists x', h' !! j = Some x' /\ visits x' = visits x + 1)
             /\ (forall x', h' !! length h = Some x' -> visits x' = 1)).
  { intros v g1 [= <- <-]. change (map (visited v) h) with (visited v <$> h). split.
    - intros j x Hx. exists (visited v x). rewrite list_lookup_fmap, Hx. done.
    - intros x'. rewrite list_lookup_fmap, lookup_ge_None_2 by lia. discriminate. }
  unfold simulation_step. cbn [fst snd].
  rewrite (select_path _ _ _ Hp). cbn [rbind].
  rewrite (deref_lookup _ _ _ Hn). cbn [rbind]. rewrite Hd.
  destruct (Z.ltb_spec (Z.of_nat (length h - 1)) (max_depth self)) as [Hlt|Hge].
  - destruct subgoals as [|a0 rest].
    + cbn [expand rbind fst snd].
      rewrite (backpropagate_path _ _ _ Hp). cbn [rbind]. apply Hsame.
    + destruct (expand_childless h g _ _ a0 rest Hn Hcs) as (a & Ha & ->).
      cbn [rbind fst snd].
      pose proof (single_path_expanded _ _ _ (Str.np_str a) Hp Hn
                    (np_str_in_map _ _
                       (proj2 (list_elem_of_lookup _ _) (ex_intro _ _ Ha)))) as Hp'.
      rewrite (backpropagate_last _ _ _ _ Hp')
        by (rewrite length_insert, length_app; cbn; lia).
      cbn [rbind]. intros [= <- <-].
      match goal with
      | |- context [map (visited ?v) ?he] =>
          change (map (visited v) he) with (visited v <$> he)
      end.
      split.
      * intros j x Hx. rewrite list_lookup_fmap.
        destruct (decide (j = length h - 1)%nat) as [->|Hne].
        -- rewrite list_lookup_insert_eq by (rewrite length_app; cbn; lia).
           assert (x = n) as -> by congruence. eexists. split; [reflexivity|done].
        -- rewrite list_lookup_insert_ne by congruence.
           rewrite (lookup_app_l_Some _ _ _ _ Hx). eexists. split; [reflexivity|done].
      * intros x'. rewrite list_lookup_fmap.
        rewrite list_lookup_insert_ne by lia.
        rewrite lookup_app_r by lia. rewrite Nat.sub_diag. cbn.
        by intros [= <-].
  - cbn [rbind fst snd].
    rewrite (backpropagate_path _ _ _ Hp). cbn [rbind]. apply Hsame.
Qed.

Lemma simulation_loop_visits self subgoals (passes : nat) : forall k h g,
  0 <= k ->
  single_path (map Str.np_str subgoals) h ->
  (subgoals <> [] ->
   Z.of_nat (length h) = 1 + Z.min k (Z.max 0 (max_depth self))) ->
  (subgoals = [] -> length h = 1%nat) ->
  (forall i n, h !! i = Some n -> visits n = k - Z.max 0 (Z.of_nat i - 1)) ->
  exists h' g',
    for_range passes (simulation_step self subgoals 0%nat) (h, g) = Ok (h', g')
    /\ forall i n, h' !! i = Some n ->
         visits n = k + Z.of_nat passes - Z.max 0 (Z.of_nat i - 1).
Proof.
  induction passes as [|passes IH]; intros k h g Hk Hp Hlen Hlen0 Hvis.
  - exists h, g. split; [reflexivity|]. intros i n Hn. rewrite (Hvis _ _ Hn). lia.
  - destruct (simulation_step_path self subgoals h g Hp)
      as (h1 & g1 & Hstep & Hp1 & _ & Hlen1).
    destruct (simulation_step_visits _ _ _ _ _ _ Hp Hstep) as [Hold Hnew].
    cbn [for_range]. rewrite Hstep. cbn [rbind].
    destruct (IH (k + 1) h1 g1) as (h' & g' & Hloop & Hvis'); [lia|exact Hp1| | | |].
    + intros Hne. rewrite Hlen1. case_bool_decide as Hdec.
      * specialize (Hlen Hne). lia.
      * specialize (Hlen Hne).
        assert (max_depth self <= Z.of_nat (length h) - 1)
          by (destruct (decide (Z.of_nat (length h) - 1 < max_depth self));
              [exfalso; apply Hdec; by split | lia]).
        lia.
    + intros ->. rewrite Hlen1, bool_decide_eq_false_2; [by apply Hlen0|].
      intros [_ ?]. done.
    + intros i n1 Hn1. destruct (h !! i) as [n|] eqn:Hn.
      * destruct (Hold _ _ Hn) as (n' & Hn' & Hv).
        assert (n1 = n') as -> by congruence. rewrite Hv, (Hvis _ _ Hn). lia.
      * apply lookup_ge_None in Hn. pose proof (lookup_lt_Some _ _ _ Hn1) as Hi.
        rewrite Hlen1 in Hi. case_bool_decide as Hdec; [|lia].
        destruct Hdec as [Hcap Hne]. specialize (Hlen Hne).
        assert (i = length h) as -> by lia.
        rewrite (Hnew _ Hn1). lia.
    + exists h', g'. split; [exact Hloop|].
      intros i n Hn. rewrite (Hvis' _ _ Hn). lia.
Qed.

Lemma run_simulations_visits self g (observation : State) subgoals :
  exists h g',
    run_simulations self g observation subgoals = Ok (h, g')
    /\ forall i n, h !! i = Some n ->
         visits n = Z.max 0 (mcts_simulations self) - Z.max 0 (Z.of_nat i - 1).
Proof.
  unfold run_simulations, MCTSNode_init. cbn [rbind].
  destruct (simulation_loop_visits self subgoals (Z.to_nat (mcts_simulations self)) 0 _ g
              ltac:(lia) (single_path_root (map Str.np_str subgoals) observation))
    as (h & g' & Hloop & Hvis).
  - intros _. cbn [length]. lia.
  - reflexivity.
  - intros [|i] n Hn; cbn in Hn; [|destruct i; discriminate].
    injection Hn as <-. reflexivity.
  - exists h, g'. split; [exact Hloop|].
    intros i n Hn. rewrite (Hvis _ _ Hn). lia.
Qed.

(** X14: after the [N] passes of the simulation loop the root and its child
    have [N] visits each and every further level one visit less than the
    level above: the node at address [i] of the path has
    [max(0, N) - max(0, i - 1)] visits. *)
Theorem visits_along_the_path self g (observation : State) subgoals :
  exists h g',
    run_simulations self g observation subgoals = Ok (h, g')
    /\ forall i n, h !! i = Some n ->
         visits n = Z.max 0 (mcts_simulations self) - Z.max 0 (Z.of_nat i - 1).
Proof. apply run_simulations_visits. Qed.

(** The loop of [search] is the loop of the planner with depth cap 10 on
    the three dummy actions. *)
Lemma search_unfold (C : F) g (root_state : State) num_simulations :
  Search.search C g root_state num_simulations
  = (hg <- run_simulations (Search.as_planner C num_simulations) g root_state
             Search.dummy_actions ;;
     r <- deref (fst hg) 0%nat ;;
     match children r with
     | [] => Ok (None, fst hg, snd hg)
     | _ :: _ =>
         best <- py_max Z.gtb (fun c => cn <- deref (fst hg) c ;; Ok (visits cn))
                        (children r) ;;
         Ok (Some best, fst hg, snd hg)
     end).
Proof. reflexivity. Qed.

(** X15: [search] returns [None] when it is given no simulation to run;
    with [N >= 1] simulations it returns the only child of the root, which
    carries one of the three dummy actions, lies at depth 1 and was visited
    [N] times. *)
Theorem search_returns_root_child (C : F) g (root_state : State) num_simulations :
  (num_simulations <= 0 ->
   exists root, Search.search C g root_state num_simulations = Ok (None, [root], g))
  /\ (1 <= num_simulations ->
      exists h g' child a,
        Search.search C g root_state num_simulations = Ok (Some 1%nat, h, g')
        /\ h !! 1%nat = Some child
        /\ parent child = Some 0%nat
        /\ depth child = 1
        /\ visits child = num_simulations
        /\ action child = Some a
        /\ a ∈ Search.dummy_actions).
Proof.
  split.
  - intros Hno. unfold Search.search, MCTSNode_init. cbn [rbind].
    replace (Z.to_nat num_simulations) with 0%nat by lia.
    eexists. reflexivity.
  - intros Hsim. rewrite search_unfold.
    destruct (run_simulations_path (Search.as_planner C num_simulations) g root_state
                Search.dummy_actions)
      as (h & g' & Hrun & Hp & _ & Hlen).
    destruct (run_simulations_visits (Search.as_planner C num_simulations) g root_state
                Search.dummy_actions)
      as (h2 & g2 & Hrun2 & Hvis).
    rewrite Hrun in Hrun2. injection Hrun2 as <- <-.
    specialize (Hlen ltac:(done)). cbn [mcts_simulations max_depth Search.as_planner] in *.
    destruct (lookup_lt_is_Some_2 h 0%nat) as [r Hr]; [lia|].
    destruct (lookup_lt_is_Some_2 h 1%nat) as [child Hchild]; [lia|].
    rewrite Hrun. cbn [rbind fst snd]. rewrite (deref_lookup _ _ _ Hr). cbn [rbind].
    rewrite (pn_children _ _ _ _ (sp_node _ _ Hp _ _ Hr)).
    rewrite path_children_inner by lia. cbn [py_max].
    rewrite (deref_lookup _ _ _ Hchild). cbn [rbind max_loop].
    destruct (sp_node _ _ Hp _ _ Hchild) as [Hpar _ Hd (a & Ha & Hin) _].
    exists h, g', child, a. split; [reflexivity|]. split; [exact Hchild|].
    split; [exact Hpar|]. split; [exact Hd|].
    split; [rewrite (Hvis _ _ Hchild); lia|]. split; [exact Ha | exact Hin].
Qed.

End PlannerMore.

Lemma search_returns_root_child_witness :
  1 <= 20
  /\ exists h g' child a,
       Search.search (of_int 1 : option Q) ([] : list nat) tt 20 = Ok (Some 1%nat, h, g')
       /\ h !! 1%nat = Some child
       /\ MCTS.visits child = 20
       /\ MCTS.action child = Some a.
Proof.
  assert (Hsim : 1 <= 20) by lia.
  split; [exact Hsim|].
  destruct (proj2 (search_returns_root_child (of_int 1 : option Q) ([] : list nat) tt 20)
              Hsim)
    as (h & g' & child & a & Hsearch & Hchild & _ & _ & Hvis & Ha & _).
  exists h, g', child, a. repeat split; assumption.
Defined.

(** ** The rule tables and the constructors *)
Section TablesMore.
Import LLM Planning.
Context {State F : Type} `{FloatOps F}.

Lemma lower_append a b : Str.lower (a +:+ b) = Str.lower a +:+ Str.lower b.
Proof.
  induction a as [|c a IH]; [reflexivity|].
  change (Str.lower (String c (a +:+ b))
          = String (Str.lower_char c) (Str.lower a +:+ Str.lower b)).
  cbn [Str.lower]. by rewrite IH.
Qed.

Lemma prefix_append s q : String.prefix s (s +:+ q) = true.
Proof.
  induction s as [|c s IH]; [by destruct q|].
  change (String.prefix (String c s) (String c (s +:+ q)) = true).
  rewrite prefix_cons, IH. by rewrite bool_decide_eq_true_2.
Qed.

Lemma contains_unfold sub s :
  Str.contains sub s
  = String.prefix sub s
    || match s with
       | EmptyString => false
       | String _ s' => Str.contains sub s'
       end.
Proof. by destruct s. Qed.

Lemma contains_append sub p q : Str.contains sub (p +:+ sub +:+ q) = true.
Proof.
  induction p as [|c p IH].
  - change ("" +:+ sub +:+ q) with (sub +:+ q).
    by rewrite contains_unfold, prefix_append.
  - change (String c p +:+ sub +:+ q) with (String c (p +:+ sub +:+ q)).
    rewrite contains_unfold, IH. apply orb_true_r.
Qed.

(** X16: the rule tables are searched in order on the lower-cased goal, so
    a goal that mentions "survive" anywhere, in any letter case, gets the
    survival list from the oracle's fallback table and from the planner's
    basic table, whatever else it mentions. *)
Theorem survive_goal_first_match (before word after : string) :
  Str.lower word = "survive" ->
  _generate_fallback_subgoals (before +:+ word +:+ after)
  = ["find food"; "find shelter"; "avoid enemies"; "maintain health"]
  /\ _generate_basic_subgoals (before +:+ word +:+ after)
     = ["find food"; "find shelter"; "avoid enemies"].
Proof.
  intros Hword.
  unfold _generate_fallback_subgoals, fallback_subgoals,
    _generate_basic_subgoals, basic_subgoals.
  cbn [first_match]. change (Str.lower "survive") with "survive".
  rewrite !lower_append, Hword, contains_append. split; reflexivity.
Qed.

(** X17: a generator comes out of its constructor enabled exactly when it
    holds a client, which is when the configuration does not disable it and
    the client module can be imported; a planner holds a generator exactly
    when subgoal generation is on and the generator module can be imported.
    Neither constructor raises. *)
Theorem constructors_enabled_iff_client (env : Env State) (config : Config F) :
  (exists gen,
      SubGoalGenerator_init env (cfg_llm config) = Ok gen
      /\ (LLM.enabled gen = true <-> llm_client gen <> None)
      /\ (LLM.enabled gen = true <->
          get_default (cfg_llm_enabled (get_default (cfg_llm config) empty_llm_config))
                      true = true
          /\ llama_client_importable env = true))
  /\ (exists self,
         Planner_init env config = Ok self
         /\ (llm self <> None <->
             subgoal_enabled self = true /\ subgoal_generator_importable env = true)).
Proof.
  split.
  - unfold SubGoalGenerator_init.
    destruct (get_default (cfg_llm_enabled _) true);
      [destruct (llama_client_importable env)|];
      cbn [rbind try_except_ImportError]; eexists; (split; [reflexivity|]);
      cbn [LLM.enabled llm_client]; split; split;
      try done; try (intros [? ?]; done); try (intros ?; done).
  - unfold Planner_init.
    destruct (get_default (cfg_sg_enabled _) true).
    + destruct (subgoal_generator_importable env); cbn [rbind try_except_ImportError].
      * unfold SubGoalGenerator_init.
        destruct (get_default (cfg_llm_enabled _) true);
          [destruct (llama_client_importable env)|];
          cbn [rbind try_except_ImportError]; eexists; (split; [reflexivity|]);
          cbn [llm subgoal_enabled]; split; done.
      * eexists; (split; [reflexivity|]); cbn [llm subgoal_enabled];
          split; [done|intros [_ ?]; done].
    + cbn [rbind]. eexists; (split; [reflexivity|]); cbn [llm subgoal_enabled];
        split; [done|intros [? _]; done].
Qed.

End TablesMore.

Lemma survive_goal_first_match_witness :
  Str.lower "Survive" = "survive"
  /\ LLM._generate_fallback_subgoals ("" +:+ "Survive" +:+ " 25 steps, then explore")
     = ["find food"; "find shelter"; "avoid enemies"; "maintain health"].
Proof.
  assert (Hword : Str.lower "Survive" = "survive") by reflexivity.
  split; [exact Hword|].
  exact (proj1 (survive_goal_first_match "" "Survive" " 25 steps, then explore" Hword)).
Defined.
